(** * Task-management web client: session store, HTTP wrapper, forms and
      the tasks view, embedded from the React sources.

    Layout of the development:
    - [Js]          the fragment of JavaScript the sources rely on: truthiness,
                    [String.prototype.trim], [RegExp.prototype.test] and JSON
                    values with optional chaining;
    - [Api]         [utils/api.js]: the axios instance, its two interceptors and
                    the endpoint tables;
    - [React]       event handlers as resumptions: setter calls, calls into the
                    session store or the router, and awaited requests;
    - [AuthContext] [contexts/AuthContext.js]: the session store;
    - [Login], [Signup], [Tasks], [Profile], [Dashboard]  the views with
                    their handlers;
    - [Json], [Sample]  a JSON codec and the data of the examples;
    - the properties: the pattern matcher against its denotation, the codec,
      the wrapper, the session store, the forms and the tasks view;
    - further properties of the sources: what each [validate] accepts, what
      each submission does, the request interceptor, how the operations of
      the session store compose, the dashboard.

    Strings are sequences of 8-bit code units (U+0000 to U+00FF); numbers
    are the integers below 2^53 in magnitude. *)

From Stdlib Require Import ZArith Ascii String.
From stdpp Require Import base option list strings gmap fin_maps.
From stdpp Require Import pretty.

Set Default Proof Using "Type".

(* ===================================================================== *)
(** ** JavaScript fragment *)
(* ===================================================================== *)

Module Js.

(** [WhiteSpace] and [LineTerminator] code units below U+0100: what [\s]
    matches and what [trim] strips. *)
Definition is_space (c : ascii) : bool :=
  match c with
  | "009" | "010" | "011" | "012" | "013" | " " | "160" => true
  | _ => false
  end%char.

Fixpoint trimStart (s : string) : string :=
  match s with
  | String c s' => if is_space c then trimStart s' else s
  | EmptyString => EmptyString
  end.

Definition trimEnd (s : string) : string :=
  String.rev (trimStart (String.rev s)).

(** [s.trim()] *)
Definition trim (s : string) : string := trimEnd (trimStart s).

(** [!!s] for a string [s]: only the empty string is falsy. *)
Definition truthy_str (s : string) : bool :=
  match s with EmptyString => false | String _ _ => true end.

(** [!!x] for a value that is [null]/[undefined] ([None]) or a string. *)
Definition truthy_opt (x : option string) : bool :=
  match x with None => false | Some s => truthy_str s end.

(** *** Regular expressions (the fragment without captures), matched by
    derivatives. *)
Inductive regex : Type :=
| Void
| Eps
| Class (p : ascii → bool)
| Seq (r1 r2 : regex)
| Alt (r1 r2 : regex)
| Star (r : regex).

(** [r+] *)
Definition Plus (r : regex) : regex := Seq r (Star r).
(** A literal character. *)
Definition Chr (c : ascii) : regex := Class (λ x, bool_decide (x = c)).
(** [\S] *)
Definition NonSpace : regex := Class (λ x, negb (is_space x)).
(** Any code unit. *)
Definition Any : regex := Class (λ _, true).

Fixpoint nullable (r : regex) : bool :=
  match r with
  | Void => false
  | Eps => true
  | Class _ => false
  | Seq r1 r2 => nullable r1 && nullable r2
  | Alt r1 r2 => nullable r1 || nullable r2
  | Star _ => true
  end.

Fixpoint deriv (c : ascii) (r : regex) : regex :=
  match r with
  | Void => Void
  | Eps => Void
  | Class p => if p c then Eps else Void
  | Seq r1 r2 =>
      if nullable r1
      then Alt (Seq (deriv c r1) r2) (deriv c r2)
      else Seq (deriv c r1) r2
  | Alt r1 r2 => Alt (deriv c r1) (deriv c r2)
  | Star r1 => Seq (deriv c r1) (Star r1)
  end.

(** The whole of [s] is a word of [r]. *)
Fixpoint matches (r : regex) (s : string) : bool :=
  match s with
  | EmptyString => nullable r
  | String c s' => matches (deriv c r) s'
  end.

(** [r.test(s)] for a pattern without anchors: some substring of [s]
    is a word of [r]. *)
Definition test (r : regex) (s : string) : bool :=
  matches (Seq (Star Any) (Seq r (Star Any))) s.

(** What a pattern denotes: its set of words. The matcher above is
    checked against it in [matches_spec]. *)
Inductive star (L : string → Prop) : string → Prop :=
| star_nil : star L ""
| star_app s1 s2 : L s1 → star L s2 → star L (s1 +:+ s2).

Fixpoint lang (r : regex) (s : string) : Prop :=
  match r with
  | Void => False
  | Eps => s = ""
  | Class p => ∃ c, s = String c "" ∧ p c = true
  | Seq r1 r2 => ∃ s1 s2, s = s1 +:+ s2 ∧ lang r1 s1 ∧ lang r2 s2
  | Alt r1 r2 => lang r1 s ∨ lang r2 s
  | Star r1 => star (lang r1) s
  end.

(** *** JSON values, as they arrive in response bodies. *)

(** The numbers of the fragment: the integers that a double holds exactly
    and that print as their decimal digits, those below 2^53 in magnitude
    ([Number.isSafeInteger], and 2^53 itself left out). *)
Definition safe_integer (n : Z) : bool := (Z.abs n <? 9007199254740992)%Z.

Local Unset Elimination Schemes.
Inductive value : Type :=
| Undefined
| Null
| Bool (b : bool)
| Num (n : Z) (safe : Is_true (safe_integer n))
| Str (s : string)
| Arr (items : list value)
| Obj (fields : list (string * value)).
Local Set Elimination Schemes.

(** [!!v] *)
Definition truthy (v : value) : bool :=
  match v with
  | Undefined | Null => false
  | Bool b => b
  | Num n _ => negb (n =? 0)%Z
  | Str s => truthy_str s
  | Arr _ | Obj _ => true
  end.

(** [a || b] *)
Definition or (a b : value) : value := if truthy a then a else b.

Fixpoint assoc (k : string) (fields : list (string * value)) : option value :=
  match fields with
  | [] => None
  | (k', v) :: rest => if decide (k' = k) then Some v else assoc k rest
  end.

(** Own data property [k] of [v]; [Undefined] when [v] has none. Primitive
    wrappers and arrays carry no property under the names read by the
    sources ([message], [tasks], [token], [user], [name], [email], [_id],
    [id], [title], [description], [status]). *)
Definition prop (k : string) (v : value) : value :=
  match v with
  | Obj fields => default Undefined (assoc k fields)
  | _ => Undefined
  end.

(** [v.k]: a [TypeError] ([None]) when [v] is [null] or [undefined]. *)
Definition member (k : string) (v : value) : option value :=
  match v with
  | Undefined | Null => None
  | _ => Some (prop k v)
  end.

(** [v?.k] *)
Definition opt_member (k : string) (v : value) : value :=
  match v with
  | Undefined | Null => Undefined
  | _ => prop k v
  end.

(** [ToString], as a template literal applies it. A number of the fragment
    prints as its decimal digits, with a minus sign when negative; inside an
    array [null] and [undefined] print as nothing. *)
Fixpoint to_string (v : value) : string :=
  match v with
  | Undefined => "undefined"
  | Null => "null"
  | Bool b => if b then "true" else "false"
  | Num n _ => pretty n
  | Str s => s
  | Arr items =>
      String.concat ","
        (map (λ x, match x with
                   | Undefined | Null => ""
                   | _ => to_string x
                   end) items)
  | Obj _ => "[object Object]"
  end.

(** A string value, and nothing else. *)
Definition as_string (v : value) : option string :=
  match v with Str s => Some s | _ => None end.

(** [Object.is(a, b)] where [b] has just been read out of a response body:
    an object or an array of a body is a new one, the same as no value held
    before; primitives are the same when they are equal. *)
Definition same (a b : value) : bool :=
  match a, b with
  | Undefined, Undefined | Null, Null => true
  | Bool x, Bool y => bool_decide (x = y)
  | Num x _, Num y _ => bool_decide (x = y)
  | Str x, Str y => bool_decide (x = y)
  | _, _ => false
  end.

End Js.

(* ===================================================================== *)
(** ** utils/api.js *)
(* ===================================================================== *)

Module Api.

(** The browser state the module touches. *)
Record Browser : Type := mkBrowser {
  localStorage : gmap string string;
  location_href : string;
}.

Inductive Method : Type := GET | POST | PUT | DELETE.

Global Instance Method_eq_dec : EqDecision Method.
Proof. solve_decision. Defined.

(** An axios request config. *)
Record Request : Type := mkRequest {
  method : Method;
  url : string;
  data : option (gmap string string);
  params : gmap string string;
  headers : gmap string string;
}.

Global Instance Request_eq_dec : EqDecision Request.
Proof. solve_decision. Defined.

(** An axios response; [body] is its [data] property. *)
Record Response : Type := mkResponse {
  status : Z;
  body : Js.value;
}.

(** An axios error: [response] is absent when no response was received. *)
Record Error : Type := mkError {
  response : option Response;
}.

(** How the promise returned by a call settles. *)
Inductive Settled : Type :=
| Fulfilled (r : Response)
| Rejected (e : Error).

(** What the transport delivers for one request. *)
Inductive Transport : Type :=
| Received (r : Response)
| NetworkFailure.

(** [axios.create({ baseURL, headers: {'Content-Type': 'application/json'} })];
    the base address is a deployment setting and is left out of [url]. *)
Definition default_headers : gmap string string :=
  {[ "Content-Type" := "application/json" ]}.

Definition config (m : Method) (u : string)
    (d : option (gmap string string)) (p : gmap string string) : Request :=
  mkRequest m u d p default_headers.

(** Request interceptor, fulfilled branch. *)
Definition request_onFulfilled (b : Browser) (cfg : Request) : Request :=
  match localStorage b !! "token" with
  | Some token =>
      if Js.truthy_str token
      then mkRequest (method cfg) (url cfg) (data cfg) (params cfg)
             (<["Authorization" := "Bearer " +:+ token]> (headers cfg))
      else cfg
  | None => cfg
  end.

(** Response interceptor, fulfilled branch: [(response) => response]. *)
Definition response_onFulfilled (b : Browser) (r : Response)
    : Browser * Settled :=
  (b, Fulfilled r).

Definition is_unauthorized (e : Error) : bool :=
  match response e with
  | Some r => bool_decide (status r = 401%Z)
  | None => false
  end.

(** Response interceptor, rejected branch. *)
Definition response_onRejected (b : Browser) (error : Error)
    : Browser * Settled :=
  if is_unauthorized error
  then (mkBrowser (delete "user" (delete "token" (localStorage b))) "/login",
        Rejected error)
  else (b, Rejected error).

(** axios' default [validateStatus]. *)
Definition validateStatus (s : Z) : bool := ((200 <=? s) && (s <? 300))%Z.

(** The adapter: a response with an accepted status fulfils the promise,
    any other response rejects it with an error carrying that response, and
    a transport failure rejects it with an error carrying none. *)
Definition settle (t : Transport) : Settled :=
  match t with
  | Received r =>
      if validateStatus (status r) then Fulfilled r
      else Rejected (mkError (Some r))
  | NetworkFailure => Rejected (mkError None)
  end.

(** One round trip seen from the caller: the adapter settles the promise,
    then the response interceptor runs. *)
Definition receive (b : Browser) (t : Transport) : Browser * Settled :=
  match settle t with
  | Fulfilled r => response_onFulfilled b r
  | Rejected error => response_onRejected b error
  end.

(** Endpoint tables. *)
Module authAPI.
Definition signup (userData : gmap string string) : Request :=
  config POST "/auth/signup" (Some userData) ∅.
Definition login (credentials : gmap string string) : Request :=
  config POST "/auth/login" (Some credentials) ∅.
End authAPI.

Module profileAPI.
Definition get : Request := config GET "/profile" None ∅.
Definition update (profileData : gmap string string) : Request :=
  config PUT "/profile" (Some profileData) ∅.
End profileAPI.

Module tasksAPI.
Definition getAll (params : gmap string string) : Request :=
  config GET "/tasks" None params.
Definition getOne (id : string) : Request :=
  config GET ("/tasks/" +:+ id) None ∅.
Definition create (taskData : gmap string string) : Request :=
  config POST "/tasks" (Some taskData) ∅.
Definition update (id : string) (taskData : gmap string string) : Request :=
  config PUT ("/tasks/" +:+ id) (Some taskData) ∅.
Definition delete (id : string) : Request :=
  config DELETE ("/tasks/" +:+ id) None ∅.
End tasksAPI.

(** [error.response?.data?.message || fallback], the pattern every view
    uses to pick the text it shows. *)
Definition message_or (error : Error) (fallback : string) : Js.value :=
  Js.or
    (match response error with
     | Some r => Js.opt_member "message" (body r)
     | None => Js.Undefined
     end)
    (Js.Str fallback).

End Api.

(* ===================================================================== *)
(** ** Event handlers *)
(* ===================================================================== *)

Module React.

(** An event handler, read off its source: it calls state setters, calls
    into the session store or the router, and suspends at each [await] of a
    request until the promise settles. The handler reads the state of the
    render that created it (its closure) and writes through setters only. *)
Inductive Proc (S E : Type) : Type :=
| Done
| Update (f : S → S) (k : Proc S E)
| Call (e : E) (k : Proc S E)
| Await (r : Api.Request) (k : Api.Settled → Proc S E).
Global Arguments Done {S E}.
Global Arguments Update {S E} f k.
Global Arguments Call {S E} e k.
Global Arguments Await {S E} r k.

(** What an observer outside the component sees, in order. *)
Inductive Event (E : Type) : Type :=
| Sent (r : Api.Request)
| Called (e : E).
Global Arguments Sent {E} r.
Global Arguments Called {E} e.

(** The backend: how the promise of a request settles, given everything
    observed before it. *)
Definition Network (E : Type) : Type :=
  list (Event E) → Api.Request → Api.Settled.

Section Run.
Context {S E : Type}.

(** Runs a handler to its end against a backend; the log is kept oldest
    first. *)
Fixpoint run (net : Network E) (p : Proc S E) (st : S)
    (log : list (Event E)) : S * list (Event E) :=
  match p with
  | Done => (st, log)
  | Update f k => run net k (f st) log
  | Call e k => run net k st (log ++ [Called e])
  | Await r k => run net (k (net log r)) st (log ++ [Sent r])
  end.

(** [p] to its end, then [q]. *)
Fixpoint seq (p q : Proc S E) : Proc S E :=
  match p with
  | Done => q
  | Update f k => Update f (seq k q)
  | Call e k => Call e (seq k q)
  | Await r k => Await r (λ o, seq (k o) q)
  end.

(** A call of the async function [p] that is not awaited, followed by the
    caller's remaining synchronous code [rest]: [p] runs up to its first
    [await], the caller finishes, and [p] resumes once its promise has
    settled. *)
Fixpoint spawn (p rest : Proc S E) : Proc S E :=
  match p with
  | Done => rest
  | Update f k => Update f (spawn k rest)
  | Call e k => Call e (spawn k rest)
  | Await r k => Await r (λ o, seq rest (k o))
  end.

(** The requests of a log, in order. *)
Fixpoint requests (log : list (Event E)) : list Api.Request :=
  match log with
  | [] => []
  | Sent r :: rest => r :: requests rest
  | Called _ :: rest => requests rest
  end.
End Run.

End React.

(* ===================================================================== *)
(** ** contexts/AuthContext.js *)
(* ===================================================================== *)

Module AuthContext.

(** The three [useState] cells of [AuthProvider]. The user cell holds
    whatever value [login], [updateUser] or [JSON.parse] hands to [setUser];
    the token cell holds [null] ([None]) or a string. *)
Record State : Type := mkState {
  user : Js.value;
  token : option string;
  loading : bool;
}.

(** [useState(null)], [useState(null)], [useState(true)]. *)
Definition initial : State := mkState Js.Null None true.

Definition setUser (u : Js.value) (st : State) : State :=
  mkState u (token st) (loading st).
Definition setToken (t : option string) (st : State) : State :=
  mkState (user st) t (loading st).
Definition setLoading (b : bool) (st : State) : State :=
  mkState (user st) (token st) b.

(** The provider together with the durable storage it persists to. *)
Record World : Type := mkWorld {
  state : State;
  localStorage : gmap string string;
}.

(** [isAuthenticated: !!token] *)
Definition isAuthenticated (st : State) : bool := Js.truthy_opt (token st).

Section Store.
(** [JSON.stringify(v)] as [localStorage.setItem] stores it (the text
    "undefined" where [JSON.stringify] returns [undefined]), and
    [JSON.parse]: [None] when it throws a [SyntaxError]. *)
Variable JSON_stringify : Js.value → string.
Variable JSON_parse : string → option Js.value.

(** The mount effect. Whatever [JSON.parse] returns becomes the user, [null]
    included. When [JSON.parse] throws, the exception leaves the effect and
    React unmounts the tree: there is no next state. *)
Definition mount (w : World) : option World :=
  let storedToken := localStorage w !! "token" in
  let storedUser := localStorage w !! "user" in
  if Js.truthy_opt storedToken && Js.truthy_opt storedUser
  then
    parsed ← JSON_parse (default "" storedUser);
    Some (mkWorld
            (setLoading false
               (setUser parsed (setToken storedToken (state w))))
            (localStorage w))
  else Some (mkWorld (setLoading false (state w)) (localStorage w)).

(** [login(token, userData)], for a token that is a string. *)
Definition login (token : string) (userData : Js.value) (w : World) : World :=
  mkWorld
    (setUser userData (setToken (Some token) (state w)))
    (<["user" := JSON_stringify userData]>
       (<["token" := token]> (localStorage w))).

Definition logout (w : World) : World :=
  mkWorld
    (setUser Js.Null (setToken None (state w)))
    (delete "user" (delete "token" (localStorage w))).

Definition updateUser (userData : Js.value) (w : World) : World :=
  mkWorld
    (setUser userData (state w))
    (<["user" := JSON_stringify userData]> (localStorage w)).

(** A page load: a fresh provider over the storage left behind. *)
Definition boot (ls : gmap string string) : World := mkWorld initial ls.

(** The public operations of the store. [Init] is a page load followed
    by the mount effect. *)
Inductive Op : Type :=
| Init
| Login (token : string) (userData : Js.value)
| Logout
| UpdateUser (userData : Js.value).

Definition exec (o : Op) (w : World) : option World :=
  match o with
  | Init => mount (boot (localStorage w))
  | Login t u => Some (login t u w)
  | Logout => Some (logout w)
  | UpdateUser u => Some (updateUser u w)
  end.

Fixpoint execs (ops : list Op) (w : World) : option World :=
  match ops with
  | [] => Some w
  | o :: rest => w' ← exec o w; execs rest w'
  end.

(** A text that a page load reads as a user: it is not empty and
    [JSON.parse] makes a truthy value of it. *)
Definition readable (text : string) : bool :=
  Js.truthy_str text &&
  match JSON_parse text with
  | Some v => Js.truthy v
  | None => false
  end.

(** A user record as the store expects one: a truthy value whose text a page
    load reads as a user. Every object is. *)
Definition storable (userData : Js.value) : bool :=
  Js.truthy userData && readable (JSON_stringify userData).

(** The conditions under which the operations keep the session whole:
    [login] is given a non-empty token and a user record, and [updateUser] is
    given a user record while the session is authenticated. (The one caller
    of [updateUser], the profile view, is shown on the protected dashboard
    route.) *)
Definition permitted (o : Op) (w : World) : bool :=
  match o with
  | Init | Logout => true
  | Login t u => Js.truthy_str t && storable u
  | UpdateUser u => isAuthenticated (state w) && storable u
  end.

Fixpoint guarded (ops : list Op) (w : World) : bool :=
  match ops with
  | [] => true
  | o :: rest =>
      permitted o w &&
      match exec o w with
      | Some w' => guarded rest w'
      | None => true
      end
  end.

(** A storage that holds no session, or a whole one: neither key, or a
    non-empty token next to a text that reads as a user. *)
Definition intact (ls : gmap string string) : bool :=
  match ls !! "token", ls !! "user" with
  | None, None => true
  | Some t, Some text => Js.truthy_str t && readable text
  | _, _ => false
  end.

(** What the store maintains under these conditions: in memory, no token
    and no user, or a non-empty token and a truthy user; a storage that is
    intact; and a stored token behind every authenticated session. *)
Definition whole (w : World) : Prop :=
  ((token (state w) = None ∧ user (state w) = Js.Null) ∨
   (Js.truthy_opt (token (state w)) = true ∧
    Js.truthy (user (state w)) = true)) ∧
  intact (localStorage w) = true ∧
  (isAuthenticated (state w) = true →
   Js.truthy_opt (localStorage w !! "token") = true).
End Store.

(** The user cell holds something: neither [null] nor [undefined]. *)
Definition has_user (st : State) : bool :=
  match user st with
  | Js.Undefined | Js.Null => false
  | _ => true
  end.

(** Token and user both present or both absent, in memory; whether present
    is read as "not null" or as "truthy". *)
Definition paired_state (st : State) : Prop :=
  (is_Some (token st) ↔ has_user st = true) ∧
  Js.truthy_opt (token st) = Js.truthy (user st).

(** Both keys present or both absent, in durable storage; whether present
    is read as "stored" or as "stored and not empty". *)
Definition paired_storage (ls : gmap string string) : Prop :=
  (is_Some (ls !! "token") ↔ is_Some (ls !! "user")) ∧
  Js.truthy_opt (ls !! "token") = Js.truthy_opt (ls !! "user").

(** No partial session. *)
Definition paired (w : World) : Prop :=
  paired_state (state w) ∧ paired_storage (localStorage w).

End AuthContext.

(* ===================================================================== *)
(** ** Calls out of the views *)
(* ===================================================================== *)

(** What a view calls besides the HTTP wrapper. *)
Inductive Effect : Type :=
| AuthLogin (token user : Js.value)   (* [login(token, user)] of [useAuth()] *)
| Navigate (to : string).             (* [navigate(to)] of [useNavigate()] *)

(** [/\S+@\S+\.\S+/], the pattern each [validate] tests the email against. *)
Definition email_pattern : Js.regex :=
  Js.Seq (Js.Plus Js.NonSpace)
    (Js.Seq (Js.Chr "@")
       (Js.Seq (Js.Plus Js.NonSpace)
          (Js.Seq (Js.Chr ".") (Js.Plus Js.NonSpace)))).

(* ===================================================================== *)
(** ** pages/Login.js *)
(* ===================================================================== *)

Module Login.

Record FormData : Type := mkFormData {
  email : string;
  password : string;
}.

Record State : Type := mkState {
  formData : FormData;
  errors : gmap string string;
  loading : bool;
  apiError : Js.value;
}.

Definition initial : State :=
  mkState (mkFormData "" "") ∅ false (Js.Str "").

Definition setErrors (e : gmap string string) (st : State) : State :=
  mkState (formData st) e (loading st) (apiError st).
Definition setLoading (b : bool) (st : State) : State :=
  mkState (formData st) (errors st) b (apiError st).
Definition setApiError (v : Js.value) (st : State) : State :=
  mkState (formData st) (errors st) (loading st) v.

(** The object sent as request body: the form's own properties. *)
Definition object_of (fd : FormData) : gmap string string :=
  {[ "email" := email fd; "password" := password fd ]}.

(** The [newErrors] object [validate] builds. *)
Definition newErrors (fd : FormData) : gmap string string :=
  let newErrors : gmap string string := ∅ in
  let newErrors :=
    if negb (Js.truthy_str (Js.trim (email fd)))
    then <["email" := "Email is required"]> newErrors
    else if negb (Js.test email_pattern (email fd))
    then <["email" := "Email is invalid"]> newErrors
    else newErrors in
  let newErrors :=
    if negb (Js.truthy_str (password fd))
    then <["password" := "Password is required"]> newErrors
    else if (String.length (password fd) <? 6)%nat
    then <["password" := "Password must be at least 6 characters"]> newErrors
    else newErrors in
  newErrors.

(** [validate]: the setter call it makes and the boolean it returns. *)
Definition validate (st : State) : (State → State) * bool :=
  let e := newErrors (formData st) in
  (setErrors e, bool_decide (size e = 0%nat)).

Definition handleSubmit (st : State) : React.Proc State Effect :=
  React.Update (setApiError (Js.Str ""))
    (let '(set_errors, valid) := validate st in
     React.Update set_errors
       (if negb valid then React.Done
        else
          React.Update (setLoading true)
            (React.Await (Api.authAPI.login (object_of (formData st)))
               (λ settled,
                  React.seq
                    match settled with
                    | Api.Fulfilled response =>
                        match Js.member "token" (Api.body response),
                              Js.member "user" (Api.body response) with
                        | Some token, Some user =>
                            React.Call (AuthLogin token user)
                              (React.Call (Navigate "/dashboard") React.Done)
                        | _, _ =>
                            (* destructuring [null]/[undefined] throws *)
                            React.Update
                              (setApiError
                                 (Js.Str "Login failed. Please check your credentials."))
                              React.Done
                        end
                    | Api.Rejected error =>
                        React.Update
                          (setApiError
                             (Api.message_or error
                                "Login failed. Please check your credentials."))
                          React.Done
                    end
                    (React.Update (setLoading false) React.Done))))).

(** The two inputs of the form, by their [name] attribute. *)
Inductive Field : Type := Email | Password.

Definition field_name (f : Field) : string :=
  match f with Email => "email" | Password => "password" end.

Definition setFormData (fd : FormData) (st : State) : State :=
  mkState fd (errors st) (loading st) (apiError st).

(** [{ ...prev, [name]: value }] *)
Definition set_field (f : Field) (value : string) (prev : FormData) : FormData :=
  match f with
  | Email => mkFormData value (password prev)
  | Password => mkFormData (email prev) value
  end.

(** [handleChange] for the change event of the input named [f]. *)
Definition handleChange (f : Field) (value : string) (st : State)
    : React.Proc State Effect :=
  React.Update (λ prev, setFormData (set_field f value (formData prev)) prev)
    (if Js.truthy_opt (errors st !! field_name f)
     then React.Update
            (λ prev, setErrors (<[field_name f := ""]> (errors prev)) prev)
            React.Done
     else React.Done).

End Login.

(* ===================================================================== *)
(** ** pages/Signup.js *)
(* ===================================================================== *)

Module Signup.

Record FormData : Type := mkFormData {
  name : string;
  email : string;
  password : string;
  confirmPassword : string;
}.

Record State : Type := mkState {
  formData : FormData;
  errors : gmap string string;
  loading : bool;
  apiError : Js.value;
}.

Definition initial : State :=
  mkState (mkFormData "" "" "" "") ∅ false (Js.Str "").

Definition setErrors (e : gmap string string) (st : State) : State :=
  mkState (formData st) e (loading st) (apiError st).
Definition setLoading (b : bool) (st : State) : State :=
  mkState (formData st) (errors st) b (apiError st).
Definition setApiError (v : Js.value) (st : State) : State :=
  mkState (formData st) (errors st) (loading st) v.

(** The form as an object: its own properties. *)
Definition object_of (fd : FormData) : gmap string string :=
  {[ "name" := name fd; "email" := email fd; "password" := password fd;
     "confirmPassword" := confirmPassword fd ]}.

(** [const { confirmPassword, ...signupData } = formData]: the rest
    object. *)
Definition signupData (fd : FormData) : gmap string string :=
  delete "confirmPassword" (object_of fd).

(** The [newErrors] object [validate] builds. *)
Definition newErrors (fd : FormData) : gmap string string :=
  let newErrors : gmap string string := ∅ in
  let newErrors :=
    if negb (Js.truthy_str (Js.trim (name fd)))
    then <["name" := "Name is required"]> newErrors
    else newErrors in
  let newErrors :=
    if negb (Js.truthy_str (Js.trim (email fd)))
    then <["email" := "Email is required"]> newErrors
    else if negb (Js.test email_pattern (email fd))
    then <["email" := "Email is invalid"]> newErrors
    else newErrors in
  let newErrors :=
    if negb (Js.truthy_str (password fd))
    then <["password" := "Password is required"]> newErrors
    else if (String.length (password fd) <? 6)%nat
    then <["password" := "Password must be at least 6 characters"]> newErrors
    else newErrors in
  let newErrors :=
    if negb (Js.truthy_str (confirmPassword fd))
    then <["confirmPassword" := "Please confirm your password"]> newErrors
    else if bool_decide (password fd ≠ confirmPassword fd)
    then <["confirmPassword" := "Passwords do not match"]> newErrors
    else newErrors in
  newErrors.

(** [validate]: the setter call it makes and the boolean it returns. *)
Definition validate (st : State) : (State → State) * bool :=
  let e := newErrors (formData st) in
  (setErrors e, bool_decide (size e = 0%nat)).

Definition handleSubmit (st : State) : React.Proc State Effect :=
  React.Update (setApiError (Js.Str ""))
    (let '(set_errors, valid) := validate st in
     React.Update set_errors
       (if negb valid then React.Done
        else
          React.Update (setLoading true)
            (React.Await (Api.authAPI.signup (signupData (formData st)))
               (λ settled,
                  React.seq
                    match settled with
                    | Api.Fulfilled response =>
                        match Js.member "token" (Api.body response),
                              Js.member "user" (Api.body response) with
                        | Some token, Some user =>
                            React.Call (AuthLogin token user)
                              (React.Call (Navigate "/dashboard") React.Done)
                        | _, _ =>
                            (* destructuring [null]/[undefined] throws *)
                            React.Update
                              (setApiError
                                 (Js.Str "Signup failed. Please try again."))
                              React.Done
                        end
                    | Api.Rejected error =>
                        React.Update
                          (setApiError
                             (Api.message_or error
                                "Signup failed. Please try again."))
                          React.Done
                    end
                    (React.Update (setLoading false) React.Done))))).

(** The four inputs of the form, by their [name] attribute. *)
Inductive Field : Type := Name | Email | Password | ConfirmPassword.

Definition field_name (f : Field) : string :=
  match f with
  | Name => "name"
  | Email => "email"
  | Password => "password"
  | ConfirmPassword => "confirmPassword"
  end.

Definition setFormData (fd : FormData) (st : State) : State :=
  mkState fd (errors st) (loading st) (apiError st).

(** [{ ...prev, [name]: value }] *)
Definition set_field (f : Field) (value : string) (prev : FormData) : FormData :=
  match f with
  | Name => mkFormData value (email prev) (password prev) (confirmPassword prev)
  | Email => mkFormData (name prev) value (password prev) (confirmPassword prev)
  | Password => mkFormData (name prev) (email prev) value (confirmPassword prev)
  | ConfirmPassword => mkFormData (name prev) (email prev) (password prev) value
  end.

(** [handleChange] for the change event of the input named [f]. *)
Definition handleChange (f : Field) (value : string) (st : State)
    : React.Proc State Effect :=
  React.Update (λ prev, setFormData (set_field f value (formData prev)) prev)
    (if Js.truthy_opt (errors st !! field_name f)
     then React.Update
            (λ prev, setErrors (<[field_name f := ""]> (errors prev)) prev)
            React.Done
     else React.Done).

End Signup.

(* ===================================================================== *)
(** ** components/Tasks.js *)
(* ===================================================================== *)

Module Tasks.

Record FormData : Type := mkFormData {
  title : string;
  description : string;
  status : string;
}.

(** The banner above the list: [{ type, text }]. *)
Record Message : Type := mkMessage {
  type : string;
  text : Js.value;
}.

(** The nine [useState] cells of the component. [tasks] holds whatever the
    list endpoint returned; [editingTask] is [null] or a task. *)
Record State : Type := mkState {
  tasks : Js.value;
  loading : bool;
  showModal : bool;
  editingTask : Js.value;
  searchText : string;
  statusFilter : string;
  formData : FormData;
  errors : gmap string string;
  message : Message;
}.

Definition initial : State :=
  mkState (Js.Arr []) false false Js.Null "" ""
    (mkFormData "" "" "pending") ∅ (mkMessage "" (Js.Str "")).

Definition setTasks (v : Js.value) (st : State) : State :=
  mkState v (loading st) (showModal st) (editingTask st) (searchText st)
    (statusFilter st) (formData st) (errors st) (message st).
Definition setLoading (b : bool) (st : State) : State :=
  mkState (tasks st) b (showModal st) (editingTask st) (searchText st)
    (statusFilter st) (formData st) (errors st) (message st).
Definition setSearchText (s : string) (st : State) : State :=
  mkState (tasks st) (loading st) (showModal st) (editingTask st) s
    (statusFilter st) (formData st) (errors st) (message st).
Definition setStatusFilter (s : string) (st : State) : State :=
  mkState (tasks st) (loading st) (showModal st) (editingTask st)
    (searchText st) s (formData st) (errors st) (message st).
Definition setMessage (m : Message) (st : State) : State :=
  mkState (tasks st) (loading st) (showModal st) (editingTask st)
    (searchText st) (statusFilter st) (formData st) (errors st) m.

(** The [params] object [fetchTasks] builds. *)
Definition params (searchText statusFilter : string) : gmap string string :=
  let params : gmap string string := ∅ in
  let params :=
    if Js.truthy_str searchText
    then <["search" := searchText]> params else params in
  let params :=
    if Js.truthy_str statusFilter
    then <["status" := statusFilter]> params else params in
  params.

(** [fetchTasks], as created by the render that saw [st]. Reading [.tasks]
    off a [null] body throws inside the [try]; the error caught then has no
    [response]. *)
Definition fetchTasks (st : State) : React.Proc State Effect :=
  React.Update (setLoading true)
    (React.Await
       (Api.tasksAPI.getAll (params (searchText st) (statusFilter st)))
       (λ settled,
          React.seq
            match settled with
            | Api.Fulfilled response =>
                match Js.member "tasks" (Api.body response) with
                | Some t =>
                    React.Update
                      (setTasks
                         (Js.or (Js.or t (Api.body response)) (Js.Arr [])))
                      React.Done
                | None =>
                    React.Update
                      (setMessage
                         (mkMessage "error" (Js.Str "Failed to fetch tasks")))
                      React.Done
                end
            | Api.Rejected error =>
                React.Update
                  (setMessage
                     (mkMessage "error"
                        (Api.message_or error "Failed to fetch tasks")))
                  React.Done
            end
            (React.Update (setLoading false) React.Done))).

(** The dependency list [[searchText, statusFilter]] of [useCallback]:
    [fetchTasks] is a new function exactly when one of the two changed. *)
Definition deps (st : State) : string * string :=
  (searchText st, statusFilter st).

(** [useEffect(() => { fetchTasks(); }, [fetchTasks])] on the first
    render. *)
Definition onMount (st : State) : React.Proc State Effect :=
  fetchTasks st.

(** The same effect on a re-render from [prev] to [next]. *)
Definition onRender (prev next : State) : React.Proc State Effect :=
  if decide (deps prev = deps next) then React.Done else fetchTasks next.

(** [onChange={(e) => setSearchText(e.target.value)}], then the render it
    causes. *)
Definition onSearchChange (value : string) (st : State)
    : React.Proc State Effect :=
  React.Update (setSearchText value) (onRender st (setSearchText value st)).

(** [onChange={(e) => setStatusFilter(e.target.value)}], then the render
    it causes. *)
Definition onStatusChange (value : string) (st : State)
    : React.Proc State Effect :=
  React.Update (setStatusFilter value)
    (onRender st (setStatusFilter value st)).

(** [handleDelete(id)]; [confirmed] is the answer to [window.confirm]. *)
Definition handleDelete (confirmed : bool) (id : string) (st : State)
    : React.Proc State Effect :=
  if negb confirmed then React.Done
  else
    React.Update (setLoading true)
      (React.Await (Api.tasksAPI.delete id)
         (λ settled,
            match settled with
            | Api.Fulfilled _ =>
                React.Update
                  (setMessage
                     (mkMessage "success"
                        (Js.Str "Task deleted successfully!")))
                  (React.spawn (fetchTasks st)
                     (React.Update (setLoading false) React.Done))
            | Api.Rejected error =>
                React.Update
                  (setMessage
                     (mkMessage "error"
                        (Api.message_or error "Failed to delete task")))
                  (React.Update (setLoading false) React.Done)
            end)).

Definition setShowModal (b : bool) (st : State) : State :=
  mkState (tasks st) (loading st) b (editingTask st) (searchText st)
    (statusFilter st) (formData st) (errors st) (message st).
Definition setEditingTask (v : Js.value) (st : State) : State :=
  mkState (tasks st) (loading st) (showModal st) v (searchText st)
    (statusFilter st) (formData st) (errors st) (message st).
Definition setFormData (fd : FormData) (st : State) : State :=
  mkState (tasks st) (loading st) (showModal st) (editingTask st)
    (searchText st) (statusFilter st) fd (errors st) (message st).
Definition setErrors (e : gmap string string) (st : State) : State :=
  mkState (tasks st) (loading st) (showModal st) (editingTask st)
    (searchText st) (statusFilter st) (formData st) e (message st).

(** The form as the object sent as request body. *)
Definition object_of (fd : FormData) : gmap string string :=
  {[ "title" := title fd; "description" := description fd;
     "status" := status fd ]}.

(** The three inputs of the modal, by their [name] attribute. *)
Inductive Field : Type := Title | Description | Status.

Definition field_name (f : Field) : string :=
  match f with
  | Title => "title"
  | Description => "description"
  | Status => "status"
  end.

(** [{ ...prev, [name]: value }] *)
Definition set_field (f : Field) (value : string) (prev : FormData) : FormData :=
  match f with
  | Title => mkFormData value (description prev) (status prev)
  | Description => mkFormData (title prev) value (status prev)
  | Status => mkFormData (title prev) (description prev) value
  end.

(** [handleChange] for the change event of the input named [f]. *)
Definition handleChange (f : Field) (value : string) (st : State)
    : React.Proc State Effect :=
  React.Update (λ prev, setFormData (set_field f value (formData prev)) prev)
    (if Js.truthy_opt (errors st !! field_name f)
     then React.Update
            (λ prev, setErrors (<[field_name f := ""]> (errors prev)) prev)
            React.Done
     else React.Done).

(** The [newErrors] object [validate] builds. *)
Definition newErrors (fd : FormData) : gmap string string :=
  let newErrors : gmap string string := ∅ in
  let newErrors :=
    if negb (Js.truthy_str (Js.trim (title fd)))
    then <["title" := "Title is required"]> newErrors
    else newErrors in
  let newErrors :=
    if negb (Js.truthy_str (Js.trim (description fd)))
    then <["description" := "Description is required"]> newErrors
    else newErrors in
  newErrors.

(** [validate]: the setter call it makes and the boolean it returns. *)
Definition validate (st : State) : (State → State) * bool :=
  let e := newErrors (formData st) in
  (setErrors e, bool_decide (size e = 0%nat)).

(** [handleCreate] *)
Definition handleCreate : React.Proc State Effect :=
  React.Update (setEditingTask Js.Null)
    (React.Update (setFormData (mkFormData "" "" "pending"))
       (React.Update (setErrors ∅)
          (React.Update (setMessage (mkMessage "" (Js.Str "")))
             (React.Update (setShowModal true) React.Done)))).

(** [handleEdit(task)], for a task whose [title], [description] and [status]
    are strings. For any other task the form would come to hold a value that
    is not a string (or, for [null], the handler throws): [None]. *)
Definition handleEdit (task : Js.value) : option (React.Proc State Effect) :=
  t ← Js.as_string (Js.prop "title" task);
  d ← Js.as_string (Js.prop "description" task);
  s ← Js.as_string (Js.prop "status" task);
  Some (React.Update (setEditingTask task)
          (React.Update (setFormData (mkFormData t d s))
             (React.Update (setErrors ∅)
                (React.Update (setMessage (mkMessage "" (Js.Str "")))
                   (React.Update (setShowModal true) React.Done))))).

(** The request [handleSubmit] awaits: an update of the task being edited,
    addressed by [editingTask._id || editingTask.id], or a creation. *)
Definition submit_request (st : State) : Api.Request :=
  if Js.truthy (editingTask st)
  then Api.tasksAPI.update
         (Js.to_string
            (Js.or (Js.prop "_id" (editingTask st))
               (Js.prop "id" (editingTask st))))
         (object_of (formData st))
  else Api.tasksAPI.create (object_of (formData st)).

(** [handleSubmit], as created by the render that saw [st]. *)
Definition handleSubmit (st : State) : React.Proc State Effect :=
  React.Update (setMessage (mkMessage "" (Js.Str "")))
    (let '(set_errors, valid) := validate st in
     React.Update set_errors
       (if negb valid then React.Done
        else
          React.Update (setLoading true)
            (React.Await (submit_request st)
               (λ settled,
                  match settled with
                  | Api.Fulfilled _ =>
                      React.Update
                        (setMessage
                           (mkMessage "success"
                              (Js.Str
                                 (if Js.truthy (editingTask st)
                                  then "Task updated successfully!"
                                  else "Task created successfully!"))))
                        (React.Update (setShowModal false)
                           (React.spawn (fetchTasks st)
                              (React.Update (setLoading false) React.Done)))
                  | Api.Rejected error =>
                      React.Update
                        (setMessage
                           (mkMessage "error"
                              (Api.message_or error "Operation failed")))
                        (React.Update (setLoading false) React.Done)
                  end)))).

(** [getStatusColor] *)
Definition getStatusColor (status : string) : string :=
  if decide (status = "completed") then "bg-success text-white"
  else if decide (status = "in-progress") then "bg-secondary text-white"
  else "bg-gray-500 text-white".

End Tasks.

(* ===================================================================== *)
(** ** components/Profile.js *)
(* ===================================================================== *)

Module Profile.

Record FormData : Type := mkFormData {
  name : string;
  email : string;
  password : string;
}.

(** The banner above the form: [{ type, text }]. *)
Record Message : Type := mkMessage {
  type : string;
  text : Js.value;
}.

Record State : Type := mkState {
  isEditing : bool;
  formData : FormData;
  errors : gmap string string;
  loading : bool;
  message : Message;
}.

Definition initial : State :=
  mkState false (mkFormData "" "" "") ∅ false (mkMessage "" (Js.Str "")).

Definition setIsEditing (b : bool) (st : State) : State :=
  mkState b (formData st) (errors st) (loading st) (message st).
Definition setFormData (fd : FormData) (st : State) : State :=
  mkState (isEditing st) fd (errors st) (loading st) (message st).
Definition setErrors (e : gmap string string) (st : State) : State :=
  mkState (isEditing st) (formData st) e (loading st) (message st).
Definition setLoading (b : bool) (st : State) : State :=
  mkState (isEditing st) (formData st) (errors st) b (message st).
Definition setMessage (m : Message) (st : State) : State :=
  mkState (isEditing st) (formData st) (errors st) (loading st) m.

(** What the view calls in the session store: [updateUser(user)]. *)
Inductive Effect : Type :=
| UpdateUser (user : Js.value).

(** [v || ''] where the form can hold it: a string. A truthy [v] that is not
    a string would put a value that is not a string into the form:
    [None]. *)
Definition or_empty (v : Js.value) : option string :=
  Js.as_string (Js.or v (Js.Str "")).

(** The form filled from the session's user: [user?.name || ''],
    [user?.email || ''] and an empty password. *)
Definition form_of (user : Js.value) : option FormData :=
  n ← or_empty (Js.opt_member "name" user);
  e ← or_empty (Js.opt_member "email" user);
  Some (mkFormData n e "").

(** The effect on [[user]]: [if (user) setFormData(...)]. For a truthy
    [user], [user.name] is [user?.name]. *)
Definition onUser (user : Js.value) : option (React.Proc State Effect) :=
  if Js.truthy user
  then fd ← form_of user; Some (React.Update (setFormData fd) React.Done)
  else Some React.Done.

(** The three inputs of the form, by their [name] attribute. *)
Inductive Field : Type := Name | Email | Password.

Definition field_name (f : Field) : string :=
  match f with
  | Name => "name"
  | Email => "email"
  | Password => "password"
  end.

(** [{ ...prev, [name]: value }] *)
Definition set_field (f : Field) (value : string) (prev : FormData) : FormData :=
  match f with
  | Name => mkFormData value (email prev) (password prev)
  | Email => mkFormData (name prev) value (password prev)
  | Password => mkFormData (name prev) (email prev) value
  end.

(** [handleChange] for the change event of the input named [f]. *)
Definition handleChange (f : Field) (value : string) (st : State)
    : React.Proc State Effect :=
  React.Update (λ prev, setFormData (set_field f value (formData prev)) prev)
    (if Js.truthy_opt (errors st !! field_name f)
     then React.Update
            (λ prev, setErrors (<[field_name f := ""]> (errors prev)) prev)
            React.Done
     else React.Done).

(** The [newErrors] object [validate] builds. *)
Definition newErrors (fd : FormData) : gmap string string :=
  let newErrors : gmap string string := ∅ in
  let newErrors :=
    if negb (Js.truthy_str (Js.trim (name fd)))
    then <["name" := "Name is required"]> newErrors
    else newErrors in
  let newErrors :=
    if negb (Js.truthy_str (Js.trim (email fd)))
    then <["email" := "Email is required"]> newErrors
    else if negb (Js.test email_pattern (email fd))
    then <["email" := "Email is invalid"]> newErrors
    else newErrors in
  let newErrors :=
    if Js.truthy_str (password fd) && (String.length (password fd) <? 6)%nat
    then <["password" := "Password must be at least 6 characters"]> newErrors
    else newErrors in
  newErrors.

(** [validate]: the setter call it makes and the boolean it returns. *)
Definition validate (st : State) : (State → State) * bool :=
  let e := newErrors (formData st) in
  (setErrors e, bool_decide (size e = 0%nat)).

(** The [updateData] object [handleSubmit] builds. *)
Definition updateData (fd : FormData) : gmap string string :=
  let updateData : gmap string string :=
    {[ "name" := name fd; "email" := email fd ]} in
  if Js.truthy_str (password fd)
  then <["password" := password fd]> updateData
  else updateData.

(** [handleSubmit], as created by the render that saw [st]. Reading [.user]
    off a [null] body throws inside the [try]. *)
Definition handleSubmit (st : State) : React.Proc State Effect :=
  React.Update (setMessage (mkMessage "" (Js.Str "")))
    (let '(set_errors, valid) := validate st in
     React.Update set_errors
       (if negb valid then React.Done
        else
          React.Update (setLoading true)
            (React.Await (Api.profileAPI.update (updateData (formData st)))
               (λ settled,
                  React.seq
                    match settled with
                    | Api.Fulfilled response =>
                        match Js.member "user" (Api.body response) with
                        | Some user =>
                            React.Call (UpdateUser user)
                              (React.Update (setIsEditing false)
                                 (React.Update
                                    (λ prev,
                                       setFormData
                                         (set_field Password "" (formData prev))
                                         prev)
                                    (React.Update
                                       (setMessage
                                          (mkMessage "success"
                                             (Js.Str "Profile updated successfully!")))
                                       React.Done)))
                        | None =>
                            React.Update
                              (setMessage
                                 (mkMessage "error"
                                    (Js.Str "Failed to update profile")))
                              React.Done
                        end
                    | Api.Rejected error =>
                        React.Update
                          (setMessage
                             (mkMessage "error"
                                (Api.message_or error "Failed to update profile")))
                          React.Done
                    end
                    (React.Update (setLoading false) React.Done))))).

(** [handleCancel], as created by a render that saw the session's [user]:
    the form goes back to [user?.name || ''], [user?.email || ''] and an
    empty password. *)
Definition handleCancel (user : Js.value)
    : option (React.Proc State Effect) :=
  fd ← form_of user;
  Some (React.Update (setIsEditing false)
          (React.Update (setFormData fd)
             (React.Update (setErrors ∅)
                (React.Update (setMessage (mkMessage "" (Js.Str "")))
                   React.Done)))).

(** [onClick={() => setIsEditing(true)}] *)
Definition startEditing : React.Proc State Effect :=
  React.Update (setIsEditing true) React.Done.

(** The value a run handed to [updateUser], the last one if several. *)
Fixpoint updated (log : list (React.Event Effect)) : option Js.value :=
  match log with
  | [] => None
  | React.Called (UpdateUser u) :: rest =>
      match updated rest with
      | Some u' => Some u'
      | None => Some u
      end
  | React.Sent _ :: rest => updated rest
  end.

(** A submission in the view as it is mounted, under a provider whose user
    is [user]. [updateUser(next)] makes [next] the provider's user; once the
    handler's updates are rendered, the effect on [[user]] runs if the user
    is no longer the same. (The updates the handler makes after
    [updateUser] leave the name and the email alone and empty the password,
    as the effect does: running the effect before them ends in the same
    state.) *)
Definition submit (net : React.Network Effect) (user : Js.value) (st : State)
    : option (State * list (React.Event Effect)) :=
  let '(st', log) := React.run net (handleSubmit st) st [] in
  match updated log with
  | Some next =>
      if Js.same user next then Some (st', log)
      else p ← onUser next; Some (React.run net p st' log)
  | None => Some (st', log)
  end.

End Profile.

(* ===================================================================== *)
(** ** pages/Dashboard.js *)
(* ===================================================================== *)

Module Dashboard.

Record State : Type := mkState {
  activeTab : string;
  sidebarOpen : bool;
}.

(** [useState('profile')], [useState(false)]. *)
Definition initial : State := mkState "profile" false.

Definition setActiveTab (t : string) (st : State) : State :=
  mkState t (sidebarOpen st).
Definition setSidebarOpen (b : bool) (st : State) : State :=
  mkState (activeTab st) b.

(** What the page calls outside itself: [logout()] of the session store and
    [navigate(to)] of the router. *)
Inductive Effect : Type :=
| Logout
| Navigate (to : string).

(** [handleLogout] *)
Definition handleLogout : React.Proc State Effect :=
  React.Call Logout (React.Call (Navigate "/login") React.Done).

(** What can be clicked: the sidebar toggle of the top bar, the two buttons
    of the sidebar, the overlay behind the open sidebar, and the logout
    button. *)
Inductive Click : Type :=
| Toggle
| ProfileButton
| TasksButton
| Overlay
| LogoutButton.

(** The [onClick] handler of each, as created by the render that saw
    [st]. *)
Definition onClick (c : Click) (st : State) : React.Proc State Effect :=
  match c with
  | Toggle => React.Update (setSidebarOpen (negb (sidebarOpen st))) React.Done
  | ProfileButton =>
      React.Update (setActiveTab "profile")
        (React.Update (setSidebarOpen false) React.Done)
  | TasksButton =>
      React.Update (setActiveTab "tasks")
        (React.Update (setSidebarOpen false) React.Done)
  | Overlay => React.Update (setSidebarOpen false) React.Done
  | LogoutButton => handleLogout
  end.

(** The panels of the main area. *)
Inductive Panel : Type := ProfilePanel | TasksPanel.

(** [{activeTab === 'profile' && <Profile />}]
    [{activeTab === 'tasks' && <Tasks />}] *)
Definition panels (st : State) : list Panel :=
  (if decide (activeTab st = "profile") then [ProfilePanel] else []) ++
  (if decide (activeTab st = "tasks") then [TasksPanel] else []).

(** The value shown after "Welcome, ": [{user?.name || 'User'}] *)
Definition welcome (user : Js.value) : Js.value :=
  Js.or (Js.opt_member "name" user) (Js.Str "User").

End Dashboard.

(* ===================================================================== *)
(** ** A JSON codec *)
(* ===================================================================== *)

(** The text [JSON.stringify] produces, and [JSON.parse] on the texts the
    examples store. The session store is verified for every pair of
    functions; this pair instantiates it in the examples. *)
Module Json.

Definition dquote : ascii := "034"%char.
Definition backslash : ascii := "092"%char.

Definition hex_digit (n : N) : ascii :=
  ascii_of_N (if (n <? 10)%N then 48 + n else 87 + n).

(** [QuoteJSONString], one code unit. *)
Definition escape (c : ascii) : string :=
  if decide (c = dquote) then String backslash (String dquote "")
  else if decide (c = backslash) then String backslash (String backslash "")
  else if decide (c = "008"%char) then String backslash "b"
  else if decide (c = "009"%char) then String backslash "t"
  else if decide (c = "010"%char) then String backslash "n"
  else if decide (c = "012"%char) then String backslash "f"
  else if decide (c = "013"%char) then String backslash "r"
  else if (N_of_ascii c <? 32)%N
  then String backslash
         (String "u" (String "0" (String "0"
            (String (hex_digit (N_of_ascii c / 16))
               (String (hex_digit (N_of_ascii c mod 16)) "")))))
  else String c "".

Fixpoint quote_body (s : string) : string :=
  match s with
  | EmptyString => EmptyString
  | String c s' => escape c +:+ quote_body s'
  end.

Definition quote (s : string) : string :=
  String dquote (quote_body s +:+ String dquote "").

(** [JSON.stringify(v)] as [localStorage.setItem] stores it: the text
    "undefined" where [JSON.stringify] returns [undefined]. The members of
    an object are written in the order they are listed, one that is
    [undefined] is left out; an item that is [undefined] is written
    [null]. *)
Fixpoint stringify (v : Js.value) : string :=
  match v with
  | Js.Undefined => "undefined"
  | Js.Null => "null"
  | Js.Bool b => if b then "true" else "false"
  | Js.Num n _ => pretty n
  | Js.Str s => quote s
  | Js.Arr items =>
      "[" +:+
      String.concat ","
        (map (λ x, match x with
                   | Js.Undefined => "null"
                   | _ => stringify x
                   end) items) +:+
      "]"
  | Js.Obj fields =>
      "{" +:+
      String.concat ","
        (flat_map (λ f, let '(k, x) := f in
                        match x with
                        | Js.Undefined => []
                        | _ => [quote k +:+ ":" +:+ stringify x]
                        end) fields) +:+
      "}"
  end.

(** A user record of the data model: [{ id, name, email }]. *)
Definition user (id name email : string) : Js.value :=
  Js.Obj [("id", Js.Str id); ("name", Js.Str name); ("email", Js.Str email)].

(** The text that opens a member with a string value: [sep], the quoted
    key, a colon and the opening quote of the value. *)
Definition member_open (sep key : string) : string :=
  sep +:+ quote key +:+ ":" +:+ String dquote "".

(** [s] without its prefix [p]. *)
Fixpoint expect (p s : string) : option string :=
  match p, s with
  | EmptyString, _ => Some s
  | String a p', String b s' => if decide (a = b) then expect p' s' else None
  | String _ _, EmptyString => None
  end.

Definition unhex (c : ascii) : option N :=
  let n := N_of_ascii c in
  if ((48 <=? n) && (n <=? 57))%N then Some (n - 48)%N
  else if ((97 <=? n) && (n <=? 102))%N then Some (n - 87)%N
  else if ((65 <=? n) && (n <=? 70))%N then Some (n - 55)%N
  else None.

(** A string literal after its opening quote: its value and what follows
    the closing quote. Code units above U+00FF are outside the model. *)
Fixpoint literal (s : string) : option (string * string) :=
  match s with
  | EmptyString => None
  | String c s' =>
      if decide (c = dquote) then Some (EmptyString, s')
      else if decide (c = backslash) then
        match s' with
        | String e s'' =>
            let plain (x : ascii) :=
              '(v, rest) ← literal s''; Some (String x v, rest) in
            if decide (e = dquote) then plain dquote
            else if decide (e = backslash) then plain backslash
            else if decide (e = "/"%char) then plain "/"%char
            else if decide (e = "b"%char) then plain "008"%char
            else if decide (e = "t"%char) then plain "009"%char
            else if decide (e = "n"%char) then plain "010"%char
            else if decide (e = "f"%char) then plain "012"%char
            else if decide (e = "r"%char) then plain "013"%char
            else if decide (e = "u"%char) then
              match s'' with
              | String "0" (String "0" (String h (String l s3))) =>
                  hi ← unhex h; lo ← unhex l;
                  '(v, rest) ← literal s3;
                  Some (String (ascii_of_N (16 * hi + lo)) v, rest)
              | _ => None
              end
            else None
        | EmptyString => None
        end
      else if (N_of_ascii c <? 32)%N then None
      else '(v, rest) ← literal s'; Some (String c v, rest)
  end.

(** A user record as [stringify] writes it. *)
Definition parse_user (s : string) : option Js.value :=
  s ← expect (member_open "{" "id") s;
  '(i, s) ← literal s;
  s ← expect (member_open "," "name") s;
  '(n, s) ← literal s;
  s ← expect (member_open "," "email") s;
  '(e, s) ← literal s;
  if decide (s = "}") then Some (user i n e) else None.

(** [JSON.parse] on the texts of the examples: the literals [null], [true]
    and [false], and a user record as [stringify] writes it. Every other
    text is outside what this function reads, and is answered as a text
    that is not JSON is. *)
Definition parse (s : string) : option Js.value :=
  if decide (s = "null") then Some Js.Null
  else if decide (s = "true") then Some (Js.Bool true)
  else if decide (s = "false") then Some (Js.Bool false)
  else parse_user s.

End Json.

(* ===================================================================== *)
(** ** Vocabulary of the properties *)
(* ===================================================================== *)

(** An error is an authorization failure when it carries a response of
    status 401. *)
Definition unauthorized (error : Api.Error) : Prop :=
  ∃ r, Api.response error = Some r ∧ Api.status r = 401%Z.

(** A submission of the login or of the signup form: the handler runs in the
    render that holds [st]. *)
Inductive Submission : Type :=
| LoginSubmission (st : Login.State)
| SignupSubmission (st : Signup.State).

(** What a submission leaves behind: the field errors on display and the
    requests that went out. *)
Definition submit (net : React.Network Effect) (s : Submission)
    : gmap string string * list Api.Request :=
  match s with
  | LoginSubmission st =>
      let '(st', log) := React.run net (Login.handleSubmit st) st [] in
      (Login.errors st', React.requests log)
  | SignupSubmission st =>
      let '(st', log) := React.run net (Signup.handleSubmit st) st [] in
      (Signup.errors st', React.requests log)
  end.

(** A run of one or more code units without white space. *)
Fixpoint unbroken (s : string) : bool :=
  match s with
  | EmptyString => true
  | String c s' => negb (Js.is_space c) && unbroken s'
  end.

Definition word (s : string) : Prop := s ≠ "" ∧ unbroken s = true.

(** The shape required of an email: somewhere in the text, [local@domain.tld]
    with each of the three parts a word. *)
Definition contains_address (s : string) : Prop :=
  ∃ pre l d t post,
    s = pre +:+ (l +:+ "@" +:+ d +:+ "." +:+ t) +:+ post ∧
    word l ∧ word d ∧ word t.

(** The rules a field can break, in the words of the specification: a
    required field left empty, an email that does not have the required
    shape ([malformed_email_spec] relates the test to [contains_address]),
    a password shorter than six characters. *)
Definition empty (s : string) : bool := bool_decide (s = "").
Definition malformed_email (s : string) : bool := negb (Js.test email_pattern s).
Definition short_password (s : string) : bool := (String.length s <? 6)%nat.

Definition when (c : bool) (field : string) : list string :=
  if c then [field] else [].

(** The fields of a submission that break a rule. *)
Definition offending (s : Submission) : list string :=
  match s with
  | LoginSubmission st =>
      let fd := Login.formData st in
      when (empty (Login.email fd) || malformed_email (Login.email fd)) "email" ++
      when (empty (Login.password fd) || short_password (Login.password fd))
        "password"
  | SignupSubmission st =>
      let fd := Signup.formData st in
      when (empty (Signup.name fd)) "name" ++
      when (empty (Signup.email fd) || malformed_email (Signup.email fd)) "email" ++
      when (empty (Signup.password fd) || short_password (Signup.password fd))
        "password" ++
      when (empty (Signup.confirmPassword fd)) "confirmPassword"
  end.

(** Nothing but white space: what [trim] empties. *)
Fixpoint blank (s : string) : bool :=
  match s with
  | EmptyString => true
  | String c s' => Js.is_space c && blank s'
  end.

(** [null] or [undefined]: what a property cannot be read from. *)
Definition nullish (v : Js.value) : bool :=
  match v with
  | Js.Undefined | Js.Null => true
  | _ => false
  end.

(** The dashboard after a series of clicks, each handled by the render that
    the clicks before it left. *)
Fixpoint dashboard_after (net : React.Network Dashboard.Effect)
    (clicks : list Dashboard.Click) (st : Dashboard.State) : Dashboard.State :=
  match clicks with
  | [] => st
  | c :: rest =>
      dashboard_after net rest (React.run net (Dashboard.onClick c st) st []).1
  end.

(* ===================================================================== *)
(** ** Sample data *)
(* ===================================================================== *)

Module Sample.

Definition alice : Js.value := Json.user "u1" "Alice" "alice@example.com".
Definition alice' : Js.value := Json.user "u1" "Alice B." "alice@example.org".

(** A browser holding a session next to an unrelated entry. *)
Definition signed_in : Api.Browser :=
  Api.mkBrowser
    {[ "token" := "tok-1"; "user" := Json.stringify alice; "theme" := "dark" ]}
    "/dashboard".

Definition unauthorized : Api.Response :=
  Api.mkResponse 401 (Js.Obj [("message", Js.Str "Token expired")]).

Definition server_error : Api.Response :=
  Api.mkResponse 500 (Js.Str "Internal Server Error").

(** A backend that accepts every request. *)
Definition accepting : React.Network Effect :=
  λ _ _, Api.Fulfilled
           (Api.mkResponse 200
              (Js.Obj [("token", Js.Str "tok-1");
                       ("user", Js.Obj [("id", Js.Str "u1");
                                        ("name", Js.Str "Alice");
                                        ("email", Js.Str "alice@example.com")]);
                       ("tasks", Js.Arr [])])).

(** A backend that fails every request, with a body that has no
    [message]. *)
Definition failing : React.Network Effect :=
  λ _ _, Api.Rejected (Api.mkError (Some server_error)).

(** A backend that refuses every request, with a message. *)
Definition refusing : React.Network Effect :=
  λ _ _, Api.Rejected
           (Api.mkError
              (Some (Api.mkResponse 503
                       (Js.Obj [("message", Js.Str "Try again later")])))).

Definition signup_form : Signup.State :=
  Signup.mkState
    (Signup.mkFormData "Alice" "alice@example.com" "secret1" "secret1")
    ∅ false (Js.Str "").

(** Every field of the signup form breaks a rule. *)
Definition signup_blank : Signup.State :=
  Signup.mkState (Signup.mkFormData "" "alice@" "abc" "") ∅ false (Js.Str "").

Definition signup_mismatch : Signup.State :=
  Signup.mkState
    (Signup.mkFormData "Alice" "alice@example.com" "secret1" "secret2")
    ∅ false (Js.Str "").

(** The tasks view with a list on display and a search in place. *)
Definition searching : Tasks.State :=
  Tasks.mkState
    (Js.Arr [Js.Obj [("id", Js.Str "7"); ("title", Js.Str "Buy milk");
                     ("description", Js.Str "2%"); ("status", Js.Str "pending")]])
    false false Js.Null "milk" "pending"
    (Tasks.mkFormData "" "" "pending") ∅ (Tasks.mkMessage "" (Js.Str "")).

Definition login_form : Login.State :=
  Login.mkState (Login.mkFormData "alice@example.com" "secret1")
    ∅ false (Js.Str "").

(** A task as a backend with numeric keys lists it. *)
Definition task7 : Js.value :=
  Js.Obj [("id", Js.Num 7 I); ("title", Js.Str "Buy milk");
          ("description", Js.Str "2%"); ("status", Js.Str "pending")].

(** The profile form in edit, a new name and a new address typed in. *)
Definition profile_editing : Profile.State :=
  Profile.mkState true (Profile.mkFormData "Alice B." "alice@example.org" "")
    ∅ false (Profile.mkMessage "" (Js.Str "")).

(** A backend that answers a profile update with the user as it keeps
    it. *)
Definition saving : React.Network Profile.Effect :=
  λ _ _, Api.Fulfilled (Api.mkResponse 200 (Js.Obj [("user", alice)])).

(** The edit of [task7] that [handleEdit] starts. *)
Definition edit_task7 : React.Proc Tasks.State Effect :=
  React.Update (Tasks.setEditingTask task7)
    (React.Update (Tasks.setFormData (Tasks.mkFormData "Buy milk" "2%" "pending"))
       (React.Update (Tasks.setErrors ∅)
          (React.Update (Tasks.setMessage (Tasks.mkMessage "" (Js.Str "")))
             (React.Update (Tasks.setShowModal true) React.Done)))).

End Sample.

(* ===================================================================== *)
(** * Properties *)
(* ===================================================================== *)

(** ** JavaScript fragment and codec *)

Example trim_strips_both_ends : Js.trim "  Buy milk  " = "Buy milk".
Proof. reflexivity. Qed.

Example trim_blank : Js.trim "   " = "".
Proof. reflexivity. Qed.

Example email_pattern_accepts :
  Js.test email_pattern "alice@example.com" = true ∧
  Js.test email_pattern "to: a@b.c, thanks" = true.
Proof. split; reflexivity. Qed.

Example email_pattern_rejects :
  Js.test email_pattern "alice" = false ∧
  Js.test email_pattern "alice@example" = false ∧
  Js.test email_pattern "alice@.com" = false ∧
  Js.test email_pattern "alice @example.com" = false.
Proof. repeat split; reflexivity. Qed.

Section RegexFacts.
Implicit Types (r : Js.regex) (s w : string).

Lemma append_assoc (a b c : string) : (a +:+ b) +:+ c = a +:+ (b +:+ c).
Proof.
  induction a as [|x a IH]; [done|].
  change (String x ((a +:+ b) +:+ c) = String x (a +:+ (b +:+ c))).
  by rewrite IH.
Qed.

Lemma append_cons (c : ascii) (a b : string) :
  String c a +:+ b = String c (a +:+ b).
Proof. reflexivity. Qed.

Lemma append_empty_l (a : string) : "" +:+ a = a.
Proof. reflexivity. Qed.

Lemma append_empty_r (a : string) : a +:+ "" = a.
Proof. induction a as [|x a IH]; [done|]. by rewrite append_cons, IH. Qed.

Lemma append_eq_empty (a b : string) : a +:+ b = "" → a = "" ∧ b = "".
Proof. destruct a; [done|]. rewrite append_cons. discriminate. Qed.

Lemma append_eq_cons (a b : string) (c : ascii) (s : string) :
  a +:+ b = String c s →
  (a = "" ∧ b = String c s) ∨ (∃ a', a = String c a' ∧ s = a' +:+ b).
Proof.
  destruct a as [|x a]; [by left|]. rewrite append_cons.
  intros [= -> <-]. right. eauto.
Qed.

Lemma nullable_spec r : Js.nullable r = true ↔ Js.lang r "".
Proof.
  induction r as [| |p|r1 IH1 r2 IH2|r1 IH1 r2 IH2|r IH]; simpl.
  - split; [discriminate|done].
  - done.
  - split; [discriminate|]. by intros (c & [=] & _).
  - rewrite andb_true_iff, IH1, IH2. split.
    + intros [H1 H2]. by exists "", "".
    + intros (s1 & s2 & Heq & H1 & H2).
      symmetry in Heq. apply append_eq_empty in Heq as [-> ->]. done.
  - by rewrite orb_true_iff, IH1, IH2.
  - split; [constructor|done].
Qed.

Lemma star_cons (L : string → Prop) (c : ascii) (s : string) :
  Js.star L (String c s) →
  ∃ s1 s2, s = s1 +:+ s2 ∧ L (String c s1) ∧ Js.star L s2.
Proof.
  intros H. remember (String c s) as w eqn:Hw.
  induction H as [|s1 s2 H1 H2 IH]; [done|].
  apply append_eq_cons in Hw as [[-> ->]|(a' & -> & ->)]; [by apply IH|].
  eauto.
Qed.

Lemma deriv_spec r c s : Js.lang (Js.deriv c r) s ↔ Js.lang r (String c s).
Proof.
  revert s.
  induction r as [| |p|r1 IH1 r2 IH2|r1 IH1 r2 IH2|r IH]; intros s; simpl.
  - done.
  - split; [done|discriminate].
  - destruct (p c) eqn:Hp; simpl.
    + split; [intros ->; eauto|]. by intros (c' & [= -> ->] & _).
    + split; [done|]. intros (c' & [= -> ->] & Hp'). congruence.
  - assert ((∃ s1 s2, s = s1 +:+ s2 ∧
                      Js.lang (Js.deriv c r1) s1 ∧ Js.lang r2 s2) ↔
            (∃ t1 t2, String c s = String c t1 +:+ t2 ∧
                      Js.lang r1 (String c t1) ∧ Js.lang r2 t2))
      as Hleft.
    { split; intros (s1 & s2 & Heq & H1 & H2); exists s1, s2.
      - subst. by rewrite append_cons, <- IH1.
      - rewrite append_cons in Heq. injection Heq as ->. by rewrite IH1. }
    destruct (Js.nullable r1) eqn:Hnull; simpl.
    + rewrite Hleft, IH2. split.
      * intros [(t1 & t2 & Heq & H1 & H2)|H2]; [eauto|].
        exists "", (String c s). by rewrite <- nullable_spec.
      * intros (t1 & t2 & Heq & H1 & H2).
        symmetry in Heq. apply append_eq_cons in Heq as [[-> ->]|(a' & -> & ->)].
        -- by right.
        -- left. eauto.
    + rewrite Hleft. split.
      * intros (t1 & t2 & Heq & H1 & H2). eauto.
      * intros (t1 & t2 & Heq & H1 & H2).
        symmetry in Heq. apply append_eq_cons in Heq as [[-> ->]|(a' & -> & ->)].
        -- apply nullable_spec in H1. congruence.
        -- eauto.
  - by rewrite IH1, IH2.
  - split.
    + intros (s1 & s2 & -> & H1 & H2). rewrite <- append_cons.
      constructor; [by apply IH|done].
    + intros (s1 & s2 & -> & H1 & H2)%star_cons. exists s1, s2. by rewrite IH.
Qed.

Lemma matches_spec r s : Js.matches r s = true ↔ Js.lang r s.
Proof.
  revert r. induction s as [|c s IH]; intros r; simpl.
  - apply nullable_spec.
  - by rewrite IH, deriv_spec.
Qed.

Lemma star_any s : Js.lang (Js.Star Js.Any) s.
Proof.
  induction s as [|c s IH]; [constructor|].
  change (String c s) with (String c "" +:+ s). constructor; [|done].
  by exists c.
Qed.

Lemma test_spec r s :
  Js.test r s = true ↔ ∃ pre w post, s = pre +:+ w +:+ post ∧ Js.lang r w.
Proof.
  unfold Js.test. rewrite matches_spec. simpl. split.
  - intros (pre & rest & -> & _ & w & post & -> & Hw & _). eauto.
  - intros (pre & w & post & -> & Hw).
    exists pre, (w +:+ post). split; [done|]. split; [apply star_any|].
    exists w, post. split; [done|]. split; [done|apply star_any].
Qed.

Lemma star_nonspace s : Js.star (Js.lang Js.NonSpace) s ↔ unbroken s = true.
Proof.
  split.
  - induction 1 as [|s1 s2 (c & -> & Hc) _ IH]; [done|].
    change (String c "" +:+ s2) with (String c s2). simpl in *.
    by rewrite Hc, IH.
  - induction s as [|c s IH]; [constructor|].
    simpl. intros [Hc Hs]%andb_true_iff.
    change (String c s) with (String c "" +:+ s). constructor; [|by apply IH].
    by exists c.
Qed.

Lemma plus_nonspace s : Js.lang (Js.Plus Js.NonSpace) s ↔ word s.
Proof.
  unfold Js.Plus, word. simpl. split.
  - intros (s1 & s2 & -> & (c & -> & Hc) & Hs%star_nonspace).
    change (String c "" +:+ s2) with (String c s2).
    split; [done|]. simpl in *. by rewrite Hc, Hs.
  - intros [Hne Hs]. destruct s as [|c s]; [done|].
    simpl in Hs. apply andb_true_iff in Hs as [Hc Hs].
    exists (String c ""), s. split; [done|]. split; [by exists c|].
    by apply star_nonspace.
Qed.

Lemma chr_spec (c : ascii) s : Js.lang (Js.Chr c) s ↔ s = String c "".
Proof.
  simpl. split.
  - by intros (c' & -> & ->%bool_decide_eq_true).
  - intros ->. exists c. by rewrite bool_decide_eq_true.
Qed.

Lemma email_pattern_spec w :
  Js.lang email_pattern w ↔
  ∃ l d t, w = l +:+ "@" +:+ d +:+ "." +:+ t ∧ word l ∧ word d ∧ word t.
Proof.
  unfold email_pattern.
  change (Js.lang (Js.Seq ?a ?b) ?s) with (∃ s1 s2, s = s1 +:+ s2 ∧ Js.lang a s1 ∧ Js.lang b s2).
  split.
  - intros (l & ? & -> & Hl%plus_nonspace & ? & ? & -> & ->%chr_spec &
            d & ? & -> & Hd%plus_nonspace & ? & t & -> & ->%chr_spec &
            Ht%plus_nonspace).
    by exists l, d, t.
  - intros (l & d & t & -> & Hl & Hd & Ht).
    exists l, ("@" +:+ d +:+ "." +:+ t). split; [done|].
    split; [by apply plus_nonspace|].
    exists "@", (d +:+ "." +:+ t). split; [done|]. split; [by apply chr_spec|].
    exists d, ("." +:+ t). split; [done|]. split; [by apply plus_nonspace|].
    exists ".", t. split; [done|]. split; [by apply chr_spec|by apply plus_nonspace].
Qed.

Lemma malformed_email_spec s : malformed_email s = false ↔ contains_address s.
Proof.
  unfold malformed_email, contains_address.
  rewrite negb_false_iff, test_spec. split.
  - intros (pre & w & post & -> & (l & d & t & -> & H)%email_pattern_spec).
    by exists pre, l, d, t, post.
  - intros (pre & l & d & t & post & -> & H).
    exists pre, (l +:+ "@" +:+ d +:+ "." +:+ t), post. split; [done|].
    apply email_pattern_spec. by exists l, d, t.
Qed.
End RegexFacts.

Section JsonFacts.
Implicit Types (s rest : string).

Lemma expect_append (p rest : string) : Json.expect p (p +:+ rest) = Some rest.
Proof.
  induction p as [|x p IH]; [done|].
  change (Json.expect (String x p) (String x (p +:+ rest)) = Some rest).
  simpl. by rewrite decide_True.
Qed.

(** Reading back one escaped code unit. *)
Lemma literal_escape (c : ascii) rest :
  Json.literal (Json.escape c +:+ rest) =
    '(v, rest') ← Json.literal rest; Some (String c v, rest').
Proof. destruct c as [[] [] [] [] [] [] [] []]; reflexivity. Qed.

Lemma literal_quote_body s rest :
  Json.literal (Json.quote_body s +:+ String Json.dquote rest) = Some (s, rest).
Proof.
  induction s as [|c s IH]; [done|].
  change (Json.quote_body (String c s)) with (Json.escape c +:+ Json.quote_body s).
  by rewrite append_assoc, literal_escape, IH.
Qed.

(** The text of a user record, member by member. *)
Lemma stringify_user (i n e : string) :
  Json.stringify (Json.user i n e) =
    Json.member_open "{" "id" +:+ Json.quote_body i +:+
    String Json.dquote
      (Json.member_open "," "name" +:+ Json.quote_body n +:+
       String Json.dquote
         (Json.member_open "," "email" +:+ Json.quote_body e +:+
          String Json.dquote "}")).
Proof.
  unfold Json.user, Json.member_open. cbn [Json.stringify flat_map app].
  unfold Json.quote, String.concat.
  change (Json.quote_body "id") with "id".
  change (Json.quote_body "name") with "name".
  change (Json.quote_body "email") with "email".
  repeat first
    [rewrite append_assoc | rewrite append_cons | rewrite append_empty_l].
  reflexivity.
Qed.

(** The codec reads back the user records it wrote. *)
Lemma parse_stringify (i n e : string) :
  Json.parse (Json.stringify (Json.user i n e)) = Some (Json.user i n e).
Proof.
  rewrite stringify_user. unfold Json.parse.
  rewrite !decide_False by (unfold Json.member_open; discriminate).
  unfold Json.parse_user.
  rewrite expect_append. cbn [mbind option_bind].
  rewrite literal_quote_body. cbn [mbind option_bind].
  rewrite expect_append. cbn [mbind option_bind].
  rewrite literal_quote_body. cbn [mbind option_bind].
  rewrite expect_append. cbn [mbind option_bind].
  rewrite literal_quote_body. cbn [mbind option_bind].
  by rewrite decide_True.
Qed.

(** The text of an object is never empty. *)
Lemma stringify_object (fields : list (string * Js.value)) :
  Js.truthy_str (Json.stringify (Js.Obj fields)) = true.
Proof. reflexivity. Qed.

Example parse_null : Json.parse (Json.stringify Js.Null) = Some Js.Null.
Proof. reflexivity. Qed.
End JsonFacts.

(** ** HTTP client wrapper *)

Section ApiFacts.
Implicit Types (b : Api.Browser) (r : Api.Response) (error : Api.Error).

Lemma is_unauthorized_spec error :
  Api.is_unauthorized error = true ↔ unauthorized error.
Proof.
  unfold Api.is_unauthorized, unauthorized.
  destruct (Api.response error) as [r|]; split.
  - intros H%bool_decide_eq_true. eauto.
  - intros (r' & [= <-] & H). by apply bool_decide_eq_true.
  - done.
  - by intros (? & ? & _).
Qed.

(** The failures that are authorization failures are the responses of
    status 401. *)
Lemma settle_unauthorized (t : Api.Transport) error :
  Api.settle t = Api.Rejected error →
  unauthorized error ↔ ∃ r, t = Api.Received r ∧ Api.status r = 401%Z.
Proof.
  unfold unauthorized. destruct t as [r|]; simpl.
  - destruct (Api.validateStatus (Api.status r)); [done|].
    intros [= <-]. simpl. split.
    + intros (r' & [= <-] & H). eauto.
    + intros (r' & [= <-] & H). eauto.
  - intros [= <-]. simpl. split; [by intros (? & ? & _)|by intros (? & ? & _)].
Qed.

Lemma settle_401 r :
  Api.status r = 401%Z →
  Api.settle (Api.Received r) = Api.Rejected (Api.mkError (Some r)).
Proof. intros H. unfold Api.settle, Api.validateStatus. by rewrite H. Qed.

Lemma response_onRejected_rejects b error :
  (Api.response_onRejected b error).2 = Api.Rejected error.
Proof. unfold Api.response_onRejected. by destruct (Api.is_unauthorized error). Qed.

Lemma response_onRejected_401 b error :
  unauthorized error →
  (Api.response_onRejected b error).1 =
    Api.mkBrowser (delete "user" (delete "token" (Api.localStorage b))) "/login".
Proof.
  intros H%is_unauthorized_spec. unfold Api.response_onRejected. by rewrite H.
Qed.

Lemma response_onRejected_other b error :
  ¬ unauthorized error → (Api.response_onRejected b error).1 = b.
Proof.
  intros H. unfold Api.response_onRejected.
  destruct (Api.is_unauthorized error) eqn:E; [|done].
  by apply is_unauthorized_spec in E.
Qed.
End ApiFacts.

(** C1. Whenever a round trip through the wrapper fails, the promise rejects
    with the error the adapter produced. If that error carries a response of
    status 401, the [token] and [user] entries are gone from local storage
    and the location is the login view; for every other failure (another
    status, or no response at all) the browser state is exactly what it
    was. *)
Theorem response_interceptor_unauthorized
    (b : Api.Browser) (t : Api.Transport) (error : Api.Error) :
  Api.settle t = Api.Rejected error →
  ∃ b', Api.receive b t = (b', Api.Rejected error) ∧
    (unauthorized error →
       Api.localStorage b' !! "token" = None ∧
       Api.localStorage b' !! "user" = None ∧
       Api.location_href b' = "/login") ∧
    (¬ unauthorized error → b' = b).
Proof.
  intros Hsettle. exists (Api.response_onRejected b error).1.
  unfold Api.receive. rewrite Hsettle. split; [|split].
  - pose proof (response_onRejected_rejects b error) as Hrej.
    destruct (Api.response_onRejected b error) as [b' s]. simpl in *.
    by rewrite Hrej.
  - intros H. rewrite (response_onRejected_401 _ _ H). simpl.
    by rewrite lookup_delete_ne, !lookup_delete_eq.
  - apply response_onRejected_other.
Qed.

Lemma response_interceptor_unauthorized_witness :
  ∃ b', Api.receive Sample.signed_in (Api.Received Sample.unauthorized)
          = (b', Api.Rejected (Api.mkError (Some Sample.unauthorized))) ∧
    (unauthorized (Api.mkError (Some Sample.unauthorized)) →
       Api.localStorage b' !! "token" = None ∧
       Api.localStorage b' !! "user" = None ∧
       Api.location_href b' = "/login") ∧
    (¬ unauthorized (Api.mkError (Some Sample.unauthorized)) →
       b' = Sample.signed_in).
Proof.
  apply (response_interceptor_unauthorized Sample.signed_in
           (Api.Received Sample.unauthorized)).
  reflexivity.
Defined.

Example unauthorized_round_trip :
  Api.receive Sample.signed_in (Api.Received Sample.unauthorized) =
    (Api.mkBrowser {[ "theme" := "dark" ]} "/login",
     Api.Rejected (Api.mkError (Some Sample.unauthorized))).
Proof. vm_compute. reflexivity. Qed.

Example server_error_round_trip :
  Api.receive Sample.signed_in (Api.Received Sample.server_error) =
    (Sample.signed_in, Api.Rejected (Api.mkError (Some Sample.server_error))) ∧
  Api.receive Sample.signed_in Api.NetworkFailure =
    (Sample.signed_in, Api.Rejected (Api.mkError None)).
Proof. split; reflexivity. Qed.

(** ** Session store *)

Section AuthContextFacts.
Variable JSON_stringify : Js.value → string.
Variable JSON_parse : string → option Js.value.

Local Abbreviation mount := (AuthContext.mount JSON_parse).
Local Abbreviation login := (AuthContext.login JSON_stringify).
Local Abbreviation updateUser := (AuthContext.updateUser JSON_stringify).
Local Abbreviation exec := (AuthContext.exec JSON_stringify JSON_parse).
Local Abbreviation execs := (AuthContext.execs JSON_stringify JSON_parse).
Local Abbreviation guarded := (AuthContext.guarded JSON_stringify JSON_parse).
Local Abbreviation readable := (AuthContext.readable JSON_parse).
Local Abbreviation storable :=
  (AuthContext.storable JSON_stringify JSON_parse).
Local Abbreviation intact := (AuthContext.intact JSON_parse).
Local Abbreviation whole := (AuthContext.whole JSON_parse).

Lemma truthy_opt_is_Some (x : option string) :
  Js.truthy_opt x = true → is_Some x.
Proof. destruct x; [eauto | done]. Qed.

Lemma truthy_str_nonempty (s : string) : Js.truthy_str s = true ↔ s ≠ "".
Proof. by destruct s. Qed.

Lemma truthy_has_user (st : AuthContext.State) :
  Js.truthy (AuthContext.user st) = true → AuthContext.has_user st = true.
Proof. unfold AuthContext.has_user. by destruct (AuthContext.user st). Qed.

Lemma readable_parse (text : string) :
  readable text = true →
  Js.truthy_str text = true ∧
  ∃ v, JSON_parse text = Some v ∧ Js.truthy v = true.
Proof.
  unfold AuthContext.readable. intros [Htext Hv]%andb_true_iff.
  split; [done|]. destruct (JSON_parse text) as [v|]; [eauto | done].
Qed.

Lemma intact_cases (ls : gmap string string) :
  intact ls = true →
  (ls !! "token" = None ∧ ls !! "user" = None) ∨
  (∃ t text, ls !! "token" = Some t ∧ ls !! "user" = Some text ∧
             Js.truthy_str t = true ∧ readable text = true).
Proof.
  unfold AuthContext.intact.
  destruct (ls !! "token") as [t|], (ls !! "user") as [text|]; try done.
  - intros [Ht Htext]%andb_true_iff. right. by exists t, text.
  - by left.
Qed.

Lemma intact_session (ls : gmap string string) (t text : string) :
  ls !! "token" = Some t → ls !! "user" = Some text →
  Js.truthy_str t = true → readable text = true → intact ls = true.
Proof.
  intros Ht Htext Htruthy Hreadable. unfold AuthContext.intact.
  by rewrite Ht, Htext, Htruthy, Hreadable.
Qed.

Lemma intact_paired (ls : gmap string string) :
  intact ls = true → AuthContext.paired_storage ls.
Proof.
  intros [[Ht Hu] | (t & text & Ht & Hu & Htruthy & Hreadable)]%intact_cases;
    unfold AuthContext.paired_storage; rewrite Ht, Hu.
  - split; [|done]. split; by intros [? [=]].
  - apply readable_parse in Hreadable as [Htext _]. simpl.
    rewrite Htruthy, Htext. split; [|done]. split; eauto.
Qed.

Lemma whole_paired (w : AuthContext.World) : whole w → AuthContext.paired w.
Proof.
  intros (Hst & Hls & _). split; [|by apply intact_paired].
  unfold AuthContext.paired_state.
  destruct Hst as [[Ht Hu] | [Ht Hu]].
  - unfold AuthContext.has_user. rewrite Ht, Hu. simpl.
    split; [|done]. split; [by intros [? [=]] | done].
  - rewrite Ht, Hu. split; [|done].
    split; intros _; [by apply truthy_has_user | by apply truthy_opt_is_Some].
Qed.

Lemma boot_whole (ls : gmap string string) :
  intact ls = true → whole (AuthContext.boot ls).
Proof. intros Hls. split; [by left|]. split; [done|]. by intros [=]. Qed.

Lemma mount_boot_whole (ls : gmap string string) :
  intact ls = true →
  ∃ w, mount (AuthContext.boot ls) = Some w ∧ whole w.
Proof.
  intros Hls. unfold AuthContext.mount, AuthContext.boot. simpl.
  destruct (intact_cases ls Hls)
    as [[Ht Hu] | (t & text & Ht & Hu & Htruthy & Hreadable)];
    rewrite Ht, Hu; simpl.
  - eexists. split; [done|]. split; [by left|]. split; [done|]. by intros [=].
  - destruct (readable_parse _ Hreadable) as (Htext & v & Hparse & Hv).
    rewrite Htruthy, Htext, Hparse. simpl.
    eexists. split; [done|]. split; [by right|]. split; [done|].
    simpl. intros _. by rewrite Ht.
Qed.

Lemma login_whole (t : string) (u : Js.value) (w : AuthContext.World) :
  Js.truthy_str t = true → storable u = true → whole (login t u w).
Proof.
  intros Ht [Hu Hreadable]%andb_true_iff. split; [by right|]. split.
  - eapply intact_session; simpl; [| |done..].
    + by rewrite lookup_insert_ne, lookup_insert_eq.
    + by rewrite lookup_insert_eq.
  - simpl. intros _. by rewrite lookup_insert_ne, lookup_insert_eq.
Qed.

Lemma logout_whole (w : AuthContext.World) : whole (AuthContext.logout w).
Proof.
  split; [by left|]. split; [|by intros [=]].
  unfold AuthContext.intact. simpl.
  by rewrite lookup_delete_ne, !lookup_delete_eq.
Qed.

Lemma updateUser_whole (u : Js.value) (w : AuthContext.World) :
  whole w →
  AuthContext.isAuthenticated (AuthContext.state w) = true →
  storable u = true →
  whole (updateUser u w).
Proof.
  intros (Hst & Hls & Hbacked) Hauth [Hu Hreadable]%andb_true_iff.
  pose proof (Hbacked Hauth) as Htok.
  destruct (AuthContext.localStorage w !! "token") as [t|] eqn:Ht; [|done].
  split; [by right|]. split.
  - eapply (intact_session _ t); simpl; [| |done..].
    + by rewrite lookup_insert_ne.
    + by rewrite lookup_insert_eq.
  - simpl. intros _. by rewrite lookup_insert_ne, Ht.
Qed.

Lemma exec_whole (o : AuthContext.Op) (w : AuthContext.World) :
  whole w →
  AuthContext.permitted JSON_stringify JSON_parse o w = true →
  ∃ w', exec o w = Some w' ∧ whole w'.
Proof.
  intros Hw Hperm. destruct o as [|t u| |u]; simpl in *.
  - apply mount_boot_whole, Hw.
  - apply andb_true_iff in Hperm as [Ht Hu]. eauto using login_whole.
  - eauto using logout_whole.
  - apply andb_true_iff in Hperm as [Hauth Hu]. eauto using updateUser_whole.
Qed.

Lemma execs_whole (ops : list AuthContext.Op) (w : AuthContext.World) :
  whole w →
  guarded ops w = true →
  ∃ w', execs ops w = Some w' ∧ whole w'.
Proof.
  revert w. induction ops as [|o ops IH]; intros w Hw Hguard; simpl in *.
  - eauto.
  - apply andb_true_iff in Hguard as [Hperm Hrest].
    destruct (exec_whole o w Hw Hperm) as (w1 & Hexec & Hw1).
    rewrite Hexec in Hrest |- *. simpl. by apply IH.
Qed.

(** C2, as the store keeps it. Start from a page load over a storage that
    holds no session or a whole one: neither key, or a non-empty token next
    to a text that [JSON.parse] reads as a user. Run any sequence of
    initialisations, logins with a non-empty token and a user record,
    logouts, and updates to a user record made while the session is
    authenticated. Then every operation of the sequence completes, and at
    the end token and user are both present or both absent, in memory and in
    durable storage, whether present is read as "not null" or as
    "truthy". *)
Theorem no_partial_session
    (ls : gmap string string) (ops : list AuthContext.Op) :
  intact ls = true →
  guarded ops (AuthContext.boot ls) = true →
  ∃ w, execs ops (AuthContext.boot ls) = Some w ∧ AuthContext.paired w.
Proof.
  intros Hls Hguard.
  destruct (execs_whole ops (AuthContext.boot ls)) as (w & Hexecs & Hw);
    [by apply boot_whole | done |].
  exists w. split; [done|]. by apply whole_paired.
Qed.

(** C4, as the store behaves. After [login(token, user)] with a non-empty
    token the session is authenticated and durable storage holds the token
    and the serialised user; after [logout()], from any session, it is not
    authenticated and both keys are absent. *)
Theorem login_then_logout
    (t : string) (u : Js.value) (w : AuthContext.World) :
  t ≠ "" →
  (AuthContext.isAuthenticated (AuthContext.state (login t u w)) = true ∧
   AuthContext.localStorage (login t u w) !! "token" = Some t ∧
   AuthContext.localStorage (login t u w) !! "user" = Some (JSON_stringify u)) ∧
  (AuthContext.isAuthenticated (AuthContext.state (AuthContext.logout w)) = false ∧
   AuthContext.localStorage (AuthContext.logout w) !! "token" = None ∧
   AuthContext.localStorage (AuthContext.logout w) !! "user" = None).
Proof.
  intros Ht. repeat split; simpl.
  - by apply truthy_str_nonempty.
  - by rewrite lookup_insert_ne, lookup_insert_eq.
  - by rewrite lookup_insert_eq.
  - by rewrite lookup_delete_ne, lookup_delete_eq.
  - by rewrite lookup_delete_eq.
Qed.
End AuthContextFacts.

(** X23. A page load after a login with a non-empty token finds the session
    again, the same token and the same user, for every codec that reads back
    the user it wrote from a text that is not empty. *)
Lemma reload_restores_session
    (JSON_stringify : Js.value → string)
    (JSON_parse : string → option Js.value)
    (t : string) (u : Js.value) (w : AuthContext.World) :
  JSON_parse (JSON_stringify u) = Some u →
  JSON_stringify u ≠ "" →
  t ≠ "" →
  AuthContext.exec JSON_stringify JSON_parse AuthContext.Init
    (AuthContext.login JSON_stringify t u w) =
  Some (AuthContext.mkWorld
          (AuthContext.mkState u (Some t) false)
          (AuthContext.localStorage (AuthContext.login JSON_stringify t u w))).
Proof.
  intros Hcodec Hnonempty Ht. unfold AuthContext.exec, AuthContext.mount. simpl.
  rewrite lookup_insert_ne, !lookup_insert_eq by done. simpl.
  destruct t as [|c t]; [done|]. simpl.
  destruct (JSON_stringify u) as [|c' s] eqn:E; [done|].
  simpl. by rewrite Hcodec.
Qed.

Lemma no_partial_session_witness :
  let ops := [AuthContext.Init; AuthContext.Login "tok-1" Sample.alice;
              AuthContext.Init; AuthContext.UpdateUser Sample.alice'] in
  let w := AuthContext.mkWorld
             (AuthContext.mkState Sample.alice' (Some "tok-1") false)
             {[ "token" := "tok-1"; "user" := Json.stringify Sample.alice' ]} in
  AuthContext.execs Json.stringify Json.parse ops (AuthContext.boot ∅) = Some w ∧
  AuthContext.paired w.
Proof.
  intros ops w.
  destruct (no_partial_session Json.stringify Json.parse ∅ ops)
    as (w' & Hexecs & Hpaired).
  - vm_compute. reflexivity.
  - vm_compute. reflexivity.
  - assert (AuthContext.execs Json.stringify Json.parse ops (AuthContext.boot ∅)
            = Some w) as Hw by (vm_compute; reflexivity).
    rewrite Hw in Hexecs. injection Hexecs as <-. exact (conj Hw Hpaired).
Defined.

(** C2 as stated fails: on a fresh browser, [updateUser] leaves a user
    without a token, in memory and in durable storage. *)
Lemma updateUser_logged_out_partial :
  let w := AuthContext.mkWorld
             (AuthContext.mkState Sample.alice None false)
             {[ "user" := Json.stringify Sample.alice ]} in
  AuthContext.execs Json.stringify Json.parse
    [AuthContext.Init; AuthContext.UpdateUser Sample.alice]
    (AuthContext.boot ∅) = Some w ∧
  ¬ AuthContext.paired_state (AuthContext.state w) ∧
  ¬ AuthContext.paired_storage (AuthContext.localStorage w).
Proof.
  intros w. split; [vm_compute; reflexivity|]. split.
  - intros [[_ H] _]. destruct H as [t Ht]; [done|]. discriminate Ht.
  - intros [[_ H] _]. destruct H as [t Ht]; [by eexists|]. discriminate Ht.
Qed.

(** It fails on a page load as well: over a storage that holds both keys,
    with the text of [null] under [user], the mount effect sets the token and
    a [null] user. For every [JSON.parse] that reads that text as [null]. *)
Lemma mount_null_user_partial
    (JSON_parse : string → option Js.value) (t : string) :
  JSON_parse "null" = Some Js.Null →
  t ≠ "" →
  let ls : gmap string string := {[ "token" := t; "user" := "null" ]} in
  is_Some (ls !! "token") ∧ is_Some (ls !! "user") ∧
  AuthContext.mount JSON_parse (AuthContext.boot ls) =
    Some (AuthContext.mkWorld (AuthContext.mkState Js.Null (Some t) false) ls) ∧
  ¬ AuthContext.paired_state (AuthContext.mkState Js.Null (Some t) false).
Proof.
  intros Hnull Ht ls.
  assert (ls !! "token" = Some t) as Htoken by (subst ls; by simplify_map_eq).
  assert (ls !! "user" = Some "null") as Huser by (subst ls; by simplify_map_eq).
  split; [|split; [|split]].
  - rewrite Htoken. eauto.
  - rewrite Huser. eauto.
  - unfold AuthContext.mount. simpl. rewrite Htoken, Huser.
    destruct t as [|c t]; [done|]. simpl. by rewrite Hnull.
  - intros [[H _] _]. simpl in H. by specialize (H (ex_intro _ t eq_refl)).
Qed.

Example mount_null_user :
  AuthContext.mount Json.parse
    (AuthContext.boot {[ "token" := "tok-1"; "user" := "null" ]}) =
  Some (AuthContext.mkWorld (AuthContext.mkState Js.Null (Some "tok-1") false)
          {[ "token" := "tok-1"; "user" := "null" ]}).
Proof. vm_compute. reflexivity. Qed.

(** And on a [login] that is handed [null] for a user. *)
Example login_null_user :
  let w := AuthContext.login Json.stringify "tok-1" Js.Null (AuthContext.boot ∅) in
  AuthContext.state w = AuthContext.mkState Js.Null (Some "tok-1") true ∧
  AuthContext.localStorage w !! "user" = Some "null" ∧
  ¬ AuthContext.paired_state (AuthContext.state w).
Proof.
  split; [reflexivity|]. split; [vm_compute; reflexivity|].
  intros [[H _] _]. simpl in H. by specialize (H (ex_intro _ "tok-1" eq_refl)).
Qed.

Lemma login_then_logout_witness :
  let w0 := AuthContext.login Json.stringify "tok-0" Sample.alice'
              (AuthContext.boot ∅) in
  let w := AuthContext.login Json.stringify "tok-1" Sample.alice w0 in
  (AuthContext.isAuthenticated (AuthContext.state w) = true ∧
   AuthContext.localStorage w !! "token" = Some "tok-1" ∧
   AuthContext.localStorage w !! "user" = Some (Json.stringify Sample.alice)) ∧
  (AuthContext.isAuthenticated (AuthContext.state (AuthContext.logout w0)) = false ∧
   AuthContext.localStorage (AuthContext.logout w0) !! "token" = None ∧
   AuthContext.localStorage (AuthContext.logout w0) !! "user" = None).
Proof.
  intros w0 w.
  apply (login_then_logout Json.stringify "tok-1" Sample.alice w0).
  discriminate.
Defined.

(** C4 as stated fails: [login] with the empty string as token stores both
    entries, yet the session is not authenticated. *)
Lemma login_empty_token_not_authenticated :
  let w := AuthContext.login Json.stringify "" Sample.alice (AuthContext.boot ∅) in
  AuthContext.isAuthenticated (AuthContext.state w) = false ∧
  AuthContext.localStorage w !! "token" = Some "" ∧
  AuthContext.localStorage w !! "user" = Some (Json.stringify Sample.alice).
Proof. vm_compute. done. Qed.

(** ** Login and signup forms *)

Section FormFacts.
Variable net : React.Network Effect.

Lemma trim_empty : Js.trim "" = "".
Proof. reflexivity. Qed.

Lemma size_zero_empty (m : gmap string string) :
  bool_decide (size m = 0%nat) = bool_decide (m = ∅).
Proof. apply bool_decide_ext, map_size_empty_iff. Qed.

Lemma lookup_Some_nonempty (m : gmap string string) (k v : string) :
  m !! k = Some v → m ≠ ∅.
Proof. intros H ->. by rewrite lookup_empty in H. Qed.

(** *** Login *)

Lemma login_blocked (st : Login.State) :
  Login.newErrors (Login.formData st) ≠ ∅ →
  React.run net (Login.handleSubmit st) st [] =
    (Login.setErrors (Login.newErrors (Login.formData st))
       (Login.setApiError (Js.Str "") st), []).
Proof.
  intros H. unfold Login.handleSubmit, Login.validate. simpl.
  rewrite size_zero_empty, bool_decide_eq_false_2 by done. reflexivity.
Qed.

Lemma login_email_error (fd : Login.FormData) :
  empty (Login.email fd) || malformed_email (Login.email fd) = true →
  ∃ msg, Login.newErrors fd !! "email" = Some msg ∧ msg ≠ "".
Proof.
  unfold empty, malformed_email, Login.newErrors. intros H.
  destruct (Js.truthy_str (Js.trim (Login.email fd))) eqn:Htrim; simpl.
  - destruct (Js.test email_pattern (Login.email fd)) eqn:Htest; simpl.
    + rewrite orb_false_r in H. apply bool_decide_eq_true in H.
      by rewrite H in Htrim.
    + exists "Email is invalid". split; [|done].
      repeat case_match; by simplify_map_eq.
  - exists "Email is required". split; [|done].
    repeat case_match; by simplify_map_eq.
Qed.

Lemma login_password_error (fd : Login.FormData) :
  empty (Login.password fd) || short_password (Login.password fd) = true →
  ∃ msg, Login.newErrors fd !! "password" = Some msg ∧ msg ≠ "".
Proof.
  unfold empty, short_password, Login.newErrors. intros H.
  destruct (Js.truthy_str (Login.password fd)) eqn:Hpw; simpl.
  - destruct (String.length (Login.password fd) <? 6)%nat eqn:Hlen; simpl.
    + exists "Password must be at least 6 characters". by simplify_map_eq.
    + rewrite orb_false_r in H. apply bool_decide_eq_true in H.
      by rewrite H in Hpw.
  - exists "Password is required". by simplify_map_eq.
Qed.

(** *** Signup *)

Lemma signup_blocked (st : Signup.State) :
  Signup.newErrors (Signup.formData st) ≠ ∅ →
  React.run net (Signup.handleSubmit st) st [] =
    (Signup.setErrors (Signup.newErrors (Signup.formData st))
       (Signup.setApiError (Js.Str "") st), []).
Proof.
  intros H. unfold Signup.handleSubmit, Signup.validate. simpl.
  rewrite size_zero_empty, bool_decide_eq_false_2 by done. reflexivity.
Qed.

Lemma signup_name_error (fd : Signup.FormData) :
  empty (Signup.name fd) = true →
  ∃ msg, Signup.newErrors fd !! "name" = Some msg ∧ msg ≠ "".
Proof.
  unfold empty, Signup.newErrors. intros ->%bool_decide_eq_true. simpl.
  exists "Name is required". split; [|done].
  repeat case_match; by simplify_map_eq.
Qed.

Lemma signup_email_error (fd : Signup.FormData) :
  empty (Signup.email fd) || malformed_email (Signup.email fd) = true →
  ∃ msg, Signup.newErrors fd !! "email" = Some msg ∧ msg ≠ "".
Proof.
  unfold empty, malformed_email, Signup.newErrors. intros H.
  destruct (Js.truthy_str (Js.trim (Signup.email fd))) eqn:Htrim; simpl.
  - destruct (Js.test email_pattern (Signup.email fd)) eqn:Htest; simpl.
    + rewrite orb_false_r in H. apply bool_decide_eq_true in H.
      by rewrite H in Htrim.
    + exists "Email is invalid". split; [|done].
      repeat case_match; by simplify_map_eq.
  - exists "Email is required". split; [|done].
    repeat case_match; by simplify_map_eq.
Qed.

Lemma signup_password_error (fd : Signup.FormData) :
  empty (Signup.password fd) || short_password (Signup.password fd) = true →
  ∃ msg, Signup.newErrors fd !! "password" = Some msg ∧ msg ≠ "".
Proof.
  unfold empty, short_password, Signup.newErrors. intros H.
  destruct (Js.truthy_str (Signup.password fd)) eqn:Hpw; simpl.
  - destruct (String.length (Signup.password fd) <? 6)%nat eqn:Hlen; simpl.
    + exists "Password must be at least 6 characters". split; [|done].
      repeat case_match; by simplify_map_eq.
    + rewrite orb_false_r in H. apply bool_decide_eq_true in H.
      by rewrite H in Hpw.
  - exists "Password is required". split; [|done].
    repeat case_match; by simplify_map_eq.
Qed.

(** The message under the confirmation field. *)
Lemma signup_confirm_error (fd : Signup.FormData) :
  Signup.password fd ≠ Signup.confirmPassword fd →
  Signup.newErrors fd !! "confirmPassword" =
    Some (if Js.truthy_str (Signup.confirmPassword fd)
          then "Passwords do not match"
          else "Please confirm your password").
Proof.
  intros Hne. unfold Signup.newErrors.
  destruct (Js.truthy_str (Signup.confirmPassword fd)); simpl.
  - rewrite bool_decide_eq_true_2 by done. by simplify_map_eq.
  - by simplify_map_eq.
Qed.

Lemma signup_confirm_required (fd : Signup.FormData) :
  empty (Signup.confirmPassword fd) = true →
  ∃ msg, Signup.newErrors fd !! "confirmPassword" = Some msg ∧ msg ≠ "".
Proof.
  unfold empty, Signup.newErrors. intros ->%bool_decide_eq_true. simpl.
  exists "Please confirm your password". by simplify_map_eq.
Qed.

Lemma Forall_when (P : string → Prop) (c : bool) (field : string) :
  (c = true → P field) → Forall P (when c field).
Proof. destruct c; simpl; auto. Qed.

Lemma Forall_nonempty (P : string → Prop) (l : list string) :
  l ≠ [] → Forall P l → ∃ field, P field.
Proof. intros Hl Hall. destruct Hall as [|field rest H _]; [done|eauto]. Qed.
End FormFacts.

(** C5. A login or signup submission in which some field offends (a required
    field left empty, an email without the required shape, a password shorter
    than six characters) sends no request, and the errors on display after it
    carry a message for every offending field: validation collects them all
    in one pass. *)
Theorem invalid_submission_blocked
    (net : React.Network Effect) (s : Submission) :
  offending s ≠ [] →
  (submit net s).2 = [] ∧
  Forall (λ field, ∃ msg, (submit net s).1 !! field = Some msg ∧ msg ≠ "")
    (offending s).
Proof.
  intros Hoff. destruct s as [st|st]; unfold submit.
  - assert (Forall (λ field, ∃ msg,
              Login.newErrors (Login.formData st) !! field = Some msg ∧ msg ≠ "")
              (offending (LoginSubmission st))) as Hall.
    { simpl. apply Forall_app. split; apply Forall_when.
      - apply login_email_error.
      - apply login_password_error. }
    assert (Login.newErrors (Login.formData st) ≠ ∅) as Hne.
    { destruct (Forall_nonempty _ _ Hoff Hall) as (field & msg & Hmsg & _).
      by eapply lookup_Some_nonempty. }
    rewrite (login_blocked net st Hne). simpl. split; [done|exact Hall].
  - assert (Forall (λ field, ∃ msg,
              Signup.newErrors (Signup.formData st) !! field = Some msg ∧ msg ≠ "")
              (offending (SignupSubmission st))) as Hall.
    { simpl. repeat (apply Forall_app; split); apply Forall_when.
      - apply signup_name_error.
      - apply signup_email_error.
      - apply signup_password_error.
      - apply signup_confirm_required. }
    assert (Signup.newErrors (Signup.formData st) ≠ ∅) as Hne.
    { destruct (Forall_nonempty _ _ Hoff Hall) as (field & msg & Hmsg & _).
      by eapply lookup_Some_nonempty. }
    rewrite (signup_blocked net st Hne). simpl. split; [done|exact Hall].
Qed.

(** C7. A signup submission whose password and confirmation differ shows a
    message under the confirmation field and sends no request. *)
Theorem signup_mismatch_blocked
    (net : React.Network Effect) (st : Signup.State) :
  Signup.password (Signup.formData st) ≠ Signup.confirmPassword (Signup.formData st) →
  let '(st', log) := React.run net (Signup.handleSubmit st) st [] in
  Signup.errors st' !! "confirmPassword" =
    Some (if Js.truthy_str (Signup.confirmPassword (Signup.formData st))
          then "Passwords do not match"
          else "Please confirm your password") ∧
  React.requests log = [].
Proof.
  intros Hne. pose proof (signup_confirm_error (Signup.formData st) Hne) as Herr.
  rewrite (signup_blocked net st (lookup_Some_nonempty _ _ _ Herr)).
  simpl. by split.
Qed.

(** C8. A signup submission that passes validation sends one request, a POST
    to the signup endpoint whose body is the form without its
    [confirmPassword] property: [name], [email] and [password] are there with
    the values of the form, and so is every other property of the form. *)
Theorem signup_body_drops_confirmation
    (net : React.Network Effect) (st : Signup.State) :
  (Signup.validate st).2 = true →
  let fd := Signup.formData st in
  let body := Signup.signupData fd in
  React.requests (React.run net (Signup.handleSubmit st) st []).2 =
    [Api.mkRequest Api.POST "/auth/signup" (Some body) ∅ Api.default_headers] ∧
  body !! "confirmPassword" = None ∧
  body !! "name" = Some (Signup.name fd) ∧
  body !! "email" = Some (Signup.email fd) ∧
  body !! "password" = Some (Signup.password fd) ∧
  (∀ k, k ≠ "confirmPassword" → body !! k = Signup.object_of fd !! k).
Proof.
  intros Hvalid fd body. split.
  - unfold Signup.handleSubmit. simpl in *. rewrite Hvalid. simpl.
    destruct (net [] _) as [response|error]; simpl; [|done].
    by repeat case_match.
  - subst body. unfold Signup.signupData, Signup.object_of.
    repeat split; try by simplify_map_eq.
    intros k Hk. by rewrite lookup_delete_ne.
Qed.

(** C9. Submitting the signup form with password [abc12] and confirmation
    [abc12] puts exactly "Password must be at least 6 characters" under the
    password field and sends no request, whatever the other fields hold. *)
Theorem signup_abc12_rejected
    (net : React.Network Effect) (name email : string)
    (errors : gmap string string) (loading : bool) (apiError : Js.value) :
  let st := Signup.mkState (Signup.mkFormData name email "abc12" "abc12")
              errors loading apiError in
  let '(st', log) := React.run net (Signup.handleSubmit st) st [] in
  Signup.errors st' !! "password" = Some "Password must be at least 6 characters" ∧
  React.requests log = [].
Proof.
  intros st.
  assert (Signup.newErrors (Signup.formData st) !! "password"
          = Some "Password must be at least 6 characters") as Herr.
  { unfold Signup.newErrors. simpl. repeat case_match; by simplify_map_eq. }
  rewrite (signup_blocked net st (lookup_Some_nonempty _ _ _ Herr)).
  simpl. by split.
Qed.

Lemma invalid_submission_blocked_witness :
  let s := SignupSubmission Sample.signup_blank in
  offending s = ["name"; "email"; "password"; "confirmPassword"] ∧
  (submit Sample.accepting s).2 = [] ∧
  Forall (λ field, ∃ msg,
            (submit Sample.accepting s).1 !! field = Some msg ∧ msg ≠ "")
    (offending s).
Proof.
  intros s.
  assert (offending s = ["name"; "email"; "password"; "confirmPassword"])
    as Hoff by (vm_compute; reflexivity).
  split; [exact Hoff|].
  apply (invalid_submission_blocked Sample.accepting s).
  rewrite Hoff. discriminate.
Defined.

Lemma signup_mismatch_blocked_witness :
  let '(st', log) :=
    React.run Sample.accepting (Signup.handleSubmit Sample.signup_mismatch)
      Sample.signup_mismatch [] in
  Signup.errors st' !! "confirmPassword" = Some "Passwords do not match" ∧
  React.requests log = [].
Proof.
  apply (signup_mismatch_blocked Sample.accepting Sample.signup_mismatch).
  discriminate.
Defined.

Lemma signup_body_drops_confirmation_witness :
  let fd := Signup.formData Sample.signup_form in
  let body := Signup.signupData fd in
  React.requests
    (React.run Sample.accepting (Signup.handleSubmit Sample.signup_form)
       Sample.signup_form []).2 =
    [Api.mkRequest Api.POST "/auth/signup" (Some body) ∅ Api.default_headers] ∧
  body !! "confirmPassword" = None ∧
  body !! "name" = Some "Alice" ∧
  body !! "email" = Some "alice@example.com" ∧
  body !! "password" = Some "secret1" ∧
  (∀ k, k ≠ "confirmPassword" → body !! k = Signup.object_of fd !! k).
Proof.
  apply (signup_body_drops_confirmation Sample.accepting Sample.signup_form).
  vm_compute. reflexivity.
Defined.

(** ** Tasks view *)

Section TasksFacts.
Variable net : React.Network Effect.
Implicit Types (st : Tasks.State) (log : list (React.Event Effect)).

Lemma requests_app log1 log2 :
  React.requests (log1 ++ log2) = React.requests log1 ++ React.requests log2.
Proof.
  induction log1 as [|[r|e] log1 IH]; simpl; [done| |done]. by rewrite IH.
Qed.

(** The request of a list fetch created by the render that saw [st]. *)
Local Abbreviation list_request st :=
  (Api.tasksAPI.getAll (Tasks.params (Tasks.searchText st) (Tasks.statusFilter st))).

Lemma fetchTasks_log st st0 log :
  (React.run net (Tasks.fetchTasks st) st0 log).2 =
    log ++ [React.Sent (list_request st)].
Proof.
  unfold Tasks.fetchTasks. simpl.
  destruct (net log _) as [response|error]; simpl; [|done].
  by destruct (Js.member "tasks" (Api.body response)).
Qed.

Lemma fetchTasks_loading st st0 log :
  Tasks.loading (React.run net (Tasks.fetchTasks st) st0 log).1 = false.
Proof.
  unfold Tasks.fetchTasks. simpl.
  destruct (net log _) as [response|error]; simpl; [|done].
  by destruct (Js.member "tasks" (Api.body response)).
Qed.

Lemma fetchTasks_rejected st st0 log error :
  net log (list_request st) = Api.Rejected error →
  (React.run net (Tasks.fetchTasks st) st0 log).1 =
    Tasks.setLoading false
      (Tasks.setMessage
         (Tasks.mkMessage "error" (Api.message_or error "Failed to fetch tasks"))
         (Tasks.setLoading true st0)).
Proof. intros H. unfold Tasks.fetchTasks. simpl. by rewrite H. Qed.

Lemma params_search (search status : string) :
  Tasks.params search status !! "search" =
    if decide (search = "") then None else Some search.
Proof.
  unfold Tasks.params.
  destruct search, status; simpl; by simplify_map_eq.
Qed.

Lemma params_status (search status : string) :
  Tasks.params search status !! "status" =
    if decide (status = "") then None else Some status.
Proof.
  unfold Tasks.params.
  destruct search, status; simpl; by simplify_map_eq.
Qed.

Lemma params_other (search status k : string) :
  k ≠ "search" → k ≠ "status" → Tasks.params search status !! k = None.
Proof.
  intros. unfold Tasks.params.
  destruct search, status; simpl; by simplify_map_eq.
Qed.

Lemma onSearchChange_requests st (value : string) :
  value ≠ Tasks.searchText st →
  React.requests (React.run net (Tasks.onSearchChange value st) st []).2 =
    [Api.tasksAPI.getAll (Tasks.params value (Tasks.statusFilter st))].
Proof.
  intros Hne. unfold Tasks.onSearchChange, Tasks.onRender. simpl.
  rewrite decide_False by (unfold Tasks.deps; simpl; congruence).
  by rewrite fetchTasks_log.
Qed.

Lemma onStatusChange_requests st (value : string) :
  value ≠ Tasks.statusFilter st →
  React.requests (React.run net (Tasks.onStatusChange value st) st []).2 =
    [Api.tasksAPI.getAll (Tasks.params (Tasks.searchText st) value)].
Proof.
  intros Hne. unfold Tasks.onStatusChange, Tasks.onRender. simpl.
  rewrite decide_False by (unfold Tasks.deps; simpl; congruence).
  by rewrite fetchTasks_log.
Qed.

(** Setting a cell to the value it holds causes no fetch. *)
Lemma onSearchChange_same st :
  React.run net (Tasks.onSearchChange (Tasks.searchText st) st) st [] = (st, []).
Proof.
  unfold Tasks.onSearchChange, Tasks.onRender. simpl.
  rewrite decide_True by done. by destruct st.
Qed.

(** C3, as the view sends it. A list fetch carries the search text under
    [search] when it is not empty and the status filter under [status] when
    it is not empty; an empty value is left out, and nothing else is sent
    as a query parameter. Changing the search text, or the status filter,
    to a different value causes exactly one list fetch, with the new
    value. *)
Theorem list_fetch_parameters st (search' status' : string) :
  search' ≠ Tasks.searchText st →
  status' ≠ Tasks.statusFilter st →
  let req := list_request st in
  React.requests (React.run net (Tasks.fetchTasks st) st []).2 = [req] ∧
  Api.method req = Api.GET ∧ Api.url req = "/tasks" ∧
  Api.params req !! "search" =
    (if decide (Tasks.searchText st = "") then None
     else Some (Tasks.searchText st)) ∧
  Api.params req !! "status" =
    (if decide (Tasks.statusFilter st = "") then None
     else Some (Tasks.statusFilter st)) ∧
  (∀ k, k ≠ "search" → k ≠ "status" → Api.params req !! k = None) ∧
  React.requests (React.run net (Tasks.onSearchChange search' st) st []).2 =
    [Api.tasksAPI.getAll (Tasks.params search' (Tasks.statusFilter st))] ∧
  React.requests (React.run net (Tasks.onStatusChange status' st) st []).2 =
    [Api.tasksAPI.getAll (Tasks.params (Tasks.searchText st) status')].
Proof.
  intros Hsearch Hstatus req. repeat split.
  - by rewrite fetchTasks_log.
  - apply params_search.
  - apply params_status.
  - intros k. apply params_other.
  - by apply onSearchChange_requests.
  - by apply onStatusChange_requests.
Qed.

(** C6, as the view behaves. Declining the confirmation sends nothing and
    leaves the view as it was. Confirming sends one DELETE for the task;
    when it succeeds, one list fetch follows it, and when it fails, nothing
    follows it. *)
Theorem delete_requests st (id : string) :
  React.run net (Tasks.handleDelete false id st) st [] = (st, []) ∧
  let reqs :=
    React.requests (React.run net (Tasks.handleDelete true id st) st []).2 in
  match net [] (Api.tasksAPI.delete id) with
  | Api.Fulfilled _ => reqs = [Api.tasksAPI.delete id; list_request st]
  | Api.Rejected _ => reqs = [Api.tasksAPI.delete id]
  end.
Proof.
  split; [done|]. unfold Tasks.handleDelete. simpl.
  destruct (net [] (Api.tasksAPI.delete id)) as [response|error]; simpl; [|done].
  destruct (net _ (Api.tasksAPI.getAll _)) as [response'|error']; simpl; [|done].
  by destruct (Js.member "tasks" (Api.body response')).
Qed.

(** C10. When the request of a list fetch is rejected, the tasks on display
    stay as they were and the banner becomes an error whose text is the
    [message] of the response body when that is truthy, and "Failed to
    fetch tasks" otherwise (no response, no body, no message, or a falsy
    one). The loading flag is off after the fetch, whichever way the request
    settled. *)
Theorem fetch_failure_keeps_tasks st st0 log (error : Api.Error) :
  net log (list_request st) = Api.Rejected error →
  let st' := (React.run net (Tasks.fetchTasks st) st0 log).1 in
  Tasks.tasks st' = Tasks.tasks st0 ∧
  Tasks.message st' =
    Tasks.mkMessage "error"
      match Api.response error with
      | Some r =>
          let m := Js.opt_member "message" (Api.body r) in
          if Js.truthy m then m else Js.Str "Failed to fetch tasks"
      | None => Js.Str "Failed to fetch tasks"
      end ∧
  Tasks.loading st' = false ∧
  (∀ net' : React.Network Effect,
     Tasks.loading (React.run net' (Tasks.fetchTasks st) st0 log).1 = false).
Proof.
  intros Hrej st'. subst st'. rewrite (fetchTasks_rejected _ _ _ _ Hrej). simpl.
  repeat split.
  - unfold Api.message_or, Js.or. by destruct (Api.response error).
  - intros net'. unfold Tasks.fetchTasks. simpl.
    destruct (net' log _) as [response|error']; simpl; [|done].
    by destruct (Js.member "tasks" (Api.body response)).
Qed.
End TasksFacts.

Lemma list_fetch_parameters_witness :
  let st := Sample.searching in
  let req := Api.mkRequest Api.GET "/tasks" None
               {[ "search" := "milk"; "status" := "pending" ]}
               Api.default_headers in
  React.requests (React.run Sample.accepting (Tasks.fetchTasks st) st []).2 = [req] ∧
  Api.params req !! "search" = Some "milk" ∧
  Api.params req !! "status" = Some "pending" ∧
  React.requests
    (React.run Sample.accepting (Tasks.onSearchChange "milk 2%" st) st []).2 =
    [Api.tasksAPI.getAll (Tasks.params "milk 2%" "pending")] ∧
  React.requests
    (React.run Sample.accepting (Tasks.onStatusChange "" st) st []).2 =
    [Api.tasksAPI.getAll (Tasks.params "milk" "")].
Proof.
  intros st req.
  destruct (list_fetch_parameters Sample.accepting st "milk 2%" "")
    as (Hfetch & _ & _ & Hsearch & Hstatus & _ & Hs & Hf);
    [discriminate | discriminate |].
  exact (conj Hfetch (conj Hsearch (conj Hstatus (conj Hs Hf)))).
Defined.

(** C3 as stated fails: the fetch of the first render, with no search text
    and no filter, carries no query parameter at all. *)
Lemma mount_fetch_without_parameters :
  let st := Tasks.initial in
  let req := Api.mkRequest Api.GET "/tasks" None ∅ Api.default_headers in
  React.requests (React.run Sample.accepting (Tasks.onMount st) st []).2 = [req] ∧
  Api.params req !! "search" ≠ Some (Tasks.searchText st) ∧
  Api.params req !! "status" ≠ Some (Tasks.statusFilter st).
Proof. repeat split; discriminate. Qed.

(** C6 as stated fails: when the DELETE is rejected, no list fetch follows
    it. *)
Lemma failed_delete_without_refetch :
  let st := Sample.searching in
  React.requests (React.run Sample.failing (Tasks.handleDelete true "7" st) st []).2 =
    [Api.mkRequest Api.DELETE "/tasks/7" None ∅ Api.default_headers].
Proof. reflexivity. Qed.

Lemma fetch_failure_keeps_tasks_witness :
  let st := Sample.searching in
  let st' := (React.run Sample.refusing (Tasks.fetchTasks st) st []).1 in
  Tasks.tasks st' = Tasks.tasks st ∧
  Tasks.message st' = Tasks.mkMessage "error" (Js.Str "Try again later") ∧
  Tasks.loading st' = false ∧
  (∀ net' : React.Network Effect,
     Tasks.loading (React.run net' (Tasks.fetchTasks st) st []).1 = false).
Proof.
  intros st.
  apply (fetch_failure_keeps_tasks Sample.refusing st st []
           (Api.mkError
              (Some (Api.mkResponse 503
                       (Js.Obj [("message", Js.Str "Try again later")]))))).
  reflexivity.
Defined.

(* ===================================================================== *)
(** * Further properties of the sources *)
(* ===================================================================== *)

(** ** Blank text and [trim] *)

Section TrimFacts.
Implicit Types (s : string) (c : ascii).

Lemma trimStart_blank s : blank s = true → Js.trimStart s = "".
Proof.
  induction s as [|c s IH]; [done|]. simpl.
  intros [Hc Hs]%andb_true_iff. rewrite Hc. by apply IH.
Qed.

Lemma trimStart_not_blank s :
  blank s = false →
  ∃ c r, Js.trimStart s = String c r ∧ Js.is_space c = false.
Proof.
  induction s as [|c s IH]; [done|]. simpl.
  destruct (Js.is_space c) eqn:Hc; simpl; [done|]. eauto.
Qed.

Lemma blank_rev_app (a b : string) :
  blank (String.rev_app a b) = blank a && blank b.
Proof.
  revert b. induction a as [|c a IH]; intros b; simpl; [done|].
  rewrite IH. simpl. by destruct (Js.is_space c), (blank a), (blank b).
Qed.

Lemma rev_app_nonempty (a : string) c (b : string) :
  String.rev_app a (String c b) ≠ "".
Proof. revert c b. induction a as [|x a IH]; intros c b; simpl; [done|apply IH]. Qed.

Lemma blank_append (a b : string) : blank (a +:+ b) = blank a && blank b.
Proof.
  induction a as [|c a IH]; [done|].
  rewrite append_cons. simpl. rewrite IH. by destruct (Js.is_space c).
Qed.

(** [trim] leaves something exactly when the text is not blank. *)
Lemma trim_truthy s : Js.truthy_str (Js.trim s) = negb (blank s).
Proof.
  unfold Js.trim. destruct (blank s) eqn:Hs; simpl.
  - by rewrite (trimStart_blank _ Hs).
  - destruct (trimStart_not_blank _ Hs) as (c & r & -> & Hc).
    unfold Js.trimEnd, String.rev.
    assert (blank (String.rev_app (String c r) "") = false) as Hrev.
    { rewrite blank_rev_app. simpl. by rewrite Hc. }
    destruct (trimStart_not_blank _ Hrev) as (c' & r' & -> & _).
    simpl. by destruct (String.rev_app r' (String c' "")) eqn:E;
      [apply rev_app_nonempty in E|].
Qed.

Lemma word_not_blank s : word s → blank s = false.
Proof.
  intros [Hne Hs]. destruct s as [|c s]; [done|]. simpl in *.
  apply andb_true_iff in Hs as [Hc _]. by destruct (Js.is_space c).
Qed.

Lemma contains_address_not_blank s : contains_address s → blank s = false.
Proof.
  intros (pre & l & d & t & post & -> & Hl%word_not_blank & _).
  rewrite !blank_append, Hl. simpl. by rewrite andb_false_r.
Qed.

Lemma test_email_pattern s :
  Js.test email_pattern s = true ↔ contains_address s.
Proof.
  rewrite <- malformed_email_spec. unfold malformed_email.
  by destruct (Js.test email_pattern s).
Qed.

(** The email block shared by the three [validate]: it records an error
    exactly when the text holds no address. *)
Lemma email_check (s : string) (m : gmap string string) :
  ((if negb (Js.truthy_str (Js.trim s))
    then <["email" := "Email is required"]> m
    else if negb (Js.test email_pattern s)
    then <["email" := "Email is invalid"]> m
    else m) = m ∧ contains_address s) ∨
  (∃ msg,
     (if negb (Js.truthy_str (Js.trim s))
      then <["email" := "Email is required"]> m
      else if negb (Js.test email_pattern s)
      then <["email" := "Email is invalid"]> m
      else m) = <["email" := msg]> m ∧ msg ≠ "" ∧ ¬ contains_address s).
Proof.
  rewrite trim_truthy, negb_involutive.
  destruct (blank s) eqn:Hblank.
  - right. eexists. split; [done|]. split; [done|].
    intros H%contains_address_not_blank. congruence.
  - destruct (Js.test email_pattern s) eqn:Htest; simpl.
    + left. split; [done|]. by apply test_email_pattern.
    + right. eexists. split; [done|]. split; [done|].
      intros H%test_email_pattern. congruence.
Qed.
End TrimFacts.

(** ** What each [validate] accepts *)

Section ValidateFacts.

Lemma truthy_str_empty (s : string) : Js.truthy_str s = false → s = "".
Proof. by destruct s. Qed.

Lemma validate_size (e : gmap string string) :
  bool_decide (size e = 0%nat) = true ↔ e = ∅.
Proof. rewrite bool_decide_eq_true. apply map_size_empty_iff. Qed.

(** Turns the outcome of each test of a [validate] into the fact it
    stands for. *)
Local Ltac read_checks :=
  repeat match goal with
  | H : (_ <? _)%nat = true |- _ => apply Nat.ltb_lt in H
  | H : (_ <? _)%nat = false |- _ => apply Nat.ltb_ge in H
  | H : Js.truthy_str _ = false |- _ => apply truthy_str_empty in H
  | H : true = negb _ |- _ => symmetry in H; apply negb_true_iff in H
  | H : false = negb _ |- _ => symmetry in H; apply negb_false_iff in H
  | H : ?P ↔ contains_address _ |- _ => destruct H
  end.

(** One case of a [validate]: either an error was recorded and some
    condition fails, or none was and all hold. *)
Local Ltac settle :=
  split;
  [ intros Hempty; try (by apply insert_non_empty in Hempty); read_checks;
    repeat split; eauto; try lia; try congruence;
    first [by left | right; lia]
  | intros Hok; destruct_and?; destruct_or?; read_checks;
    repeat match goal with
    | H : contains_address ?s, H' : contains_address ?s → _ |- _ =>
        specialize (H' H)
    | H : ?x = "", H' : context [?x] |- _ =>
        lazymatch type of H' with
        | x = "" => fail
        | _ => rewrite H in H'
        end
    end;
    simpl in *; first [done | lia | congruence] ].

Lemma login_newErrors_empty (fd : Login.FormData) :
  Login.newErrors fd = ∅ ↔
  contains_address (Login.email fd) ∧ (6 ≤ String.length (Login.password fd))%nat.
Proof.
  unfold Login.newErrors.
  pose proof (trim_truthy (Login.email fd)) as Hemail.
  pose proof (test_email_pattern (Login.email fd)) as Htest.
  pose proof (contains_address_not_blank (Login.email fd)) as Hblank.
  destruct (Js.truthy_str (Js.trim (Login.email fd)));
    destruct (Js.test email_pattern (Login.email fd));
    destruct (Js.truthy_str (Login.password fd)) eqn:Hpw;
    destruct (String.length (Login.password fd) <? 6)%nat eqn:Hlen;
    simpl.
  all: settle.
Qed.

Lemma signup_newErrors_empty (fd : Signup.FormData) :
  Signup.newErrors fd = ∅ ↔
  blank (Signup.name fd) = false ∧
  contains_address (Signup.email fd) ∧
  (6 ≤ String.length (Signup.password fd))%nat ∧
  Signup.confirmPassword fd = Signup.password fd.
Proof.
  unfold Signup.newErrors.
  pose proof (trim_truthy (Signup.name fd)) as Hname.
  pose proof (trim_truthy (Signup.email fd)) as Hemail.
  pose proof (test_email_pattern (Signup.email fd)) as Htest.
  pose proof (contains_address_not_blank (Signup.email fd)) as Hblank.
  destruct (Js.truthy_str (Js.trim (Signup.name fd)));
    destruct (Js.truthy_str (Js.trim (Signup.email fd)));
    destruct (Js.test email_pattern (Signup.email fd));
    destruct (Js.truthy_str (Signup.password fd)) eqn:Hpw;
    destruct (String.length (Signup.password fd) <? 6)%nat eqn:Hlen;
    destruct (Js.truthy_str (Signup.confirmPassword fd)) eqn:Hconf;
    try case_bool_decide; simpl.
  all: settle.
Qed.

Lemma profile_newErrors_empty (fd : Profile.FormData) :
  Profile.newErrors fd = ∅ ↔
  blank (Profile.name fd) = false ∧
  contains_address (Profile.email fd) ∧
  (Profile.password fd = "" ∨ (6 ≤ String.length (Profile.password fd))%nat).
Proof.
  unfold Profile.newErrors.
  pose proof (trim_truthy (Profile.name fd)) as Hname.
  pose proof (trim_truthy (Profile.email fd)) as Hemail.
  pose proof (test_email_pattern (Profile.email fd)) as Htest.
  pose proof (contains_address_not_blank (Profile.email fd)) as Hblank.
  destruct (Js.truthy_str (Js.trim (Profile.name fd)));
    destruct (Js.truthy_str (Js.trim (Profile.email fd)));
    destruct (Js.test email_pattern (Profile.email fd));
    destruct (Js.truthy_str (Profile.password fd)) eqn:Hpw;
    destruct (String.length (Profile.password fd) <? 6)%nat eqn:Hlen;
    simpl.
  all: settle.
Qed.

Lemma tasks_newErrors_empty (fd : Tasks.FormData) :
  Tasks.newErrors fd = ∅ ↔
  blank (Tasks.title fd) = false ∧ blank (Tasks.description fd) = false.
Proof.
  unfold Tasks.newErrors.
  pose proof (trim_truthy (Tasks.title fd)) as Htitle.
  pose proof (trim_truthy (Tasks.description fd)) as Hdescription.
  destruct (Js.truthy_str (Js.trim (Tasks.title fd)));
    destruct (Js.truthy_str (Js.trim (Tasks.description fd))); simpl.
  all: settle.
Qed.
End ValidateFacts.

(** ** The pattern of the email check *)

(** X1. The email test of the three [validate] accepts a text exactly when
    some part of it reads [local@domain.tld] with each of the three parts a
    run of one or more code units without white space; what surrounds that
    part is not looked at. *)
Theorem email_test_accepts (s : string) :
  Js.test email_pattern s = true ↔ contains_address s.
Proof. apply test_email_pattern. Qed.

(** ** Request interceptor *)

(** X2. The request interceptor adds [Authorization: Bearer <token>] exactly
    when local storage holds a non-empty token, and changes nothing else of
    the request: method, address, body, query parameters and the other
    headers stay. *)
Theorem request_interceptor_bearer (b : Api.Browser) (cfg : Api.Request) :
  let cfg' := Api.request_onFulfilled b cfg in
  Api.method cfg' = Api.method cfg ∧
  Api.url cfg' = Api.url cfg ∧
  Api.data cfg' = Api.data cfg ∧
  Api.params cfg' = Api.params cfg ∧
  (∀ k, k ≠ "Authorization" → Api.headers cfg' !! k = Api.headers cfg !! k) ∧
  Api.headers cfg' !! "Authorization" =
    match Api.localStorage b !! "token" with
    | Some (String c t) => Some ("Bearer " +:+ String c t)
    | _ => Api.headers cfg !! "Authorization"
    end.
Proof.
  unfold Api.request_onFulfilled.
  destruct (Api.localStorage b !! "token") as [[|c t]|]; simpl;
    repeat split; try done.
  - intros k Hk. by rewrite lookup_insert_ne.
  - by rewrite lookup_insert_eq.
Qed.

Lemma request_without_token (b : Api.Browser) (cfg : Api.Request) :
  Js.truthy_opt (Api.localStorage b !! "token") = false →
  Api.request_onFulfilled b cfg = cfg.
Proof.
  unfold Api.request_onFulfilled.
  by destruct (Api.localStorage b !! "token") as [[|c t]|].
Qed.

(** X3. A response of status 401 takes nothing out of local storage but the
    two session entries, and the request sent after it goes out as it was
    configured, without a bearer credential. *)
Theorem unauthorized_then_anonymous
    (b : Api.Browser) (r : Api.Response) (cfg : Api.Request) :
  Api.status r = 401%Z →
  let b' := (Api.receive b (Api.Received r)).1 in
  (∀ k, k ≠ "token" → k ≠ "user" →
        Api.localStorage b' !! k = Api.localStorage b !! k) ∧
  Api.request_onFulfilled b' cfg = cfg.
Proof.
  intros Hr b'. subst b'. unfold Api.receive.
  rewrite (settle_401 _ Hr).
  rewrite response_onRejected_401 by (exists r; done). simpl. split.
  - intros k Ht Hu. by rewrite !lookup_delete_ne.
  - apply request_without_token. simpl.
    by rewrite lookup_delete_ne, lookup_delete_eq.
Qed.

Lemma unauthorized_then_anonymous_witness :
  let b' := (Api.receive Sample.signed_in (Api.Received Sample.unauthorized)).1 in
  (∀ k, k ≠ "token" → k ≠ "user" →
        Api.localStorage b' !! k = Api.localStorage Sample.signed_in !! k) ∧
  Api.request_onFulfilled b' (Api.tasksAPI.getAll ∅) = Api.tasksAPI.getAll ∅.
Proof.
  apply (unauthorized_then_anonymous Sample.signed_in Sample.unauthorized
           (Api.tasksAPI.getAll ∅)).
  reflexivity.
Defined.

(** ** Session store, continued *)

Section AuthContextMore.
Variable JSON_stringify : Js.value → string.
Variable JSON_parse : string → option Js.value.

Local Abbreviation login := (AuthContext.login JSON_stringify).
Local Abbreviation updateUser := (AuthContext.updateUser JSON_stringify).

(** X4. While the session store's storage backs the wrapper, every request
    after [login] with a non-empty token carries that token as bearer
    credential, and every request after [logout] goes out without one. *)
Theorem session_token_on_requests
    (t : string) (u : Js.value) (w : AuthContext.World)
    (href : string) (cfg : Api.Request) :
  t ≠ "" →
  Api.headers
    (Api.request_onFulfilled
       (Api.mkBrowser (AuthContext.localStorage (login t u w)) href) cfg)
    !! "Authorization" = Some ("Bearer " +:+ t) ∧
  Api.request_onFulfilled
    (Api.mkBrowser (AuthContext.localStorage (AuthContext.logout w)) href) cfg
  = cfg.
Proof.
  intros Ht. split.
  - unfold Api.request_onFulfilled. simpl.
    rewrite lookup_insert_ne, lookup_insert_eq by done.
    destruct t as [|c t]; [done|]. simpl. by rewrite lookup_insert_eq.
  - apply request_without_token. simpl.
    by rewrite lookup_delete_ne, lookup_delete_eq.
Qed.

(** X5. When local storage lacks the token or the user, or holds an empty
    text for either, initialisation ends logged out: no token and no user in
    memory, the loading flag off, and the storage left as it was found. *)
Theorem mount_without_both_entries (ls : gmap string string) :
  ls !! "token" = None ∨ ls !! "token" = Some "" ∨
  ls !! "user" = None ∨ ls !! "user" = Some "" →
  AuthContext.mount JSON_parse (AuthContext.boot ls) =
    Some (AuthContext.mkWorld (AuthContext.mkState Js.Null None false) ls).
Proof.
  intros H. unfold AuthContext.mount. simpl.
  assert (Js.truthy_opt (ls !! "token") && Js.truthy_opt (ls !! "user") = false)
    as ->; [|done].
  destruct H as [-> | [-> | [-> | ->]]]; simpl; try done; apply andb_false_r.
Qed.

(** X6. [updateUser] replaces the user, in memory and in storage, and touches
    nothing else: the token, the loading flag, the answer of
    [isAuthenticated] and every other storage entry are as before. *)
Theorem updateUser_keeps_token (u : Js.value) (w : AuthContext.World) :
  let w' := updateUser u w in
  AuthContext.user (AuthContext.state w') = u ∧
  AuthContext.localStorage w' !! "user" = Some (JSON_stringify u) ∧
  AuthContext.token (AuthContext.state w') = AuthContext.token (AuthContext.state w) ∧
  AuthContext.loading (AuthContext.state w') = AuthContext.loading (AuthContext.state w) ∧
  AuthContext.isAuthenticated (AuthContext.state w') =
    AuthContext.isAuthenticated (AuthContext.state w) ∧
  (∀ k, k ≠ "user" →
        AuthContext.localStorage w' !! k = AuthContext.localStorage w !! k).
Proof.
  simpl. repeat split.
  - by rewrite lookup_insert_eq.
  - intros k Hk. by rewrite lookup_insert_ne.
Qed.

(** X7. How the operations of the store compose: updating the user after a
    login is a login with the new user; a logout after a login leaves what
    a logout alone leaves; a second logout changes nothing. *)
Theorem session_operations_compose
    (t : string) (u u' : Js.value) (w : AuthContext.World) :
  updateUser u' (login t u w) = login t u' w ∧
  AuthContext.logout (login t u w) = AuthContext.logout w ∧
  AuthContext.logout (AuthContext.logout w) = AuthContext.logout w.
Proof.
  destruct w as [[us tk ld] ls].
  unfold AuthContext.updateUser, AuthContext.login, AuthContext.logout.
  simpl. repeat split; f_equal; apply map_eq; intros k;
    (destruct (decide (k = "user")) as [->|]; [by simplify_map_eq|]);
    (destruct (decide (k = "token")) as [->|]; by simplify_map_eq).
Qed.
End AuthContextMore.

Lemma session_token_on_requests_witness :
  let w := AuthContext.boot ∅ in
  Api.headers
    (Api.request_onFulfilled
       (Api.mkBrowser
          (AuthContext.localStorage
             (AuthContext.login Json.stringify "tok-1" Sample.alice w))
          "/dashboard")
       (Api.tasksAPI.getAll ∅))
    !! "Authorization" = Some "Bearer tok-1" ∧
  Api.request_onFulfilled
    (Api.mkBrowser (AuthContext.localStorage (AuthContext.logout w)) "/login")
    (Api.tasksAPI.getAll ∅)
  = Api.tasksAPI.getAll ∅.
Proof.
  apply (session_token_on_requests Json.stringify "tok-1" Sample.alice
           (AuthContext.boot ∅) "/dashboard" (Api.tasksAPI.getAll ∅)).
  discriminate.
Defined.

Lemma mount_without_both_entries_witness :
  AuthContext.mount Json.parse (AuthContext.boot {[ "token" := "tok-1" ]}) =
    Some (AuthContext.mkWorld (AuthContext.mkState Js.Null None false)
            {[ "token" := "tok-1" ]}).
Proof.
  apply (mount_without_both_entries Json.parse {[ "token" := "tok-1" ]}).
  right. right. left. reflexivity.
Defined.

Lemma reload_restores_session_witness :
  AuthContext.exec Json.stringify Json.parse AuthContext.Init
    (AuthContext.login Json.stringify "tok-1" Sample.alice (AuthContext.boot ∅)) =
  Some (AuthContext.mkWorld
          (AuthContext.mkState Sample.alice (Some "tok-1") false)
          (AuthContext.localStorage
             (AuthContext.login Json.stringify "tok-1" Sample.alice
                (AuthContext.boot ∅)))).
Proof.
  apply (reload_restores_session Json.stringify Json.parse "tok-1" Sample.alice
           (AuthContext.boot ∅)).
  - apply parse_stringify.
  - discriminate.
  - discriminate.
Defined.

(** ** Login and signup, continued *)

Section SubmitFacts.
Variable net : React.Network Effect.

Lemma member_nullish (k : string) (v : Js.value) :
  Js.member k v = if nullish v then None else Some (Js.prop k v).
Proof. by destruct v. Qed.

(** X8. The login form is accepted exactly when the email holds an address
    and the password has six code units or more. *)
Theorem login_validate_accepts (st : Login.State) :
  (Login.validate st).2 = true ↔
  contains_address (Login.email (Login.formData st)) ∧
  (6 ≤ String.length (Login.password (Login.formData st)))%nat.
Proof.
  unfold Login.validate. simpl.
  by rewrite validate_size, login_newErrors_empty.
Qed.

(** X9. An accepted login sends one POST to [/auth/login] with the email and
    the password. The session store's [login] and the navigation to
    [/dashboard] are called, in this order and with the [token] and [user]
    read off the body (absent ones as [undefined]), exactly when the request
    is fulfilled with a body that is neither [null] nor [undefined]; a
    rejected request or such a body shows the server's message or the
    fallback text and calls nothing. In every case the form is kept, no
    field error is shown and the loading flag ends off. *)
Theorem login_submit_outcomes (st : Login.State) :
  (Login.validate st).2 = true →
  let req :=
    Api.mkRequest Api.POST "/auth/login"
      (Some {[ "email" := Login.email (Login.formData st);
               "password" := Login.password (Login.formData st) ]})
      ∅ Api.default_headers in
  let out := React.run net (Login.handleSubmit st) st [] in
  Login.formData out.1 = Login.formData st ∧
  Login.errors out.1 = ∅ ∧
  Login.loading out.1 = false ∧
  match net [] req with
  | Api.Fulfilled response =>
      if nullish (Api.body response)
      then out.2 = [React.Sent req] ∧
           Login.apiError out.1 =
             Js.Str "Login failed. Please check your credentials."
      else out.2 = [React.Sent req;
                    React.Called
                      (AuthLogin (Js.prop "token" (Api.body response))
                         (Js.prop "user" (Api.body response)));
                    React.Called (Navigate "/dashboard")] ∧
           Login.apiError out.1 = Js.Str ""
  | Api.Rejected error =>
      out.2 = [React.Sent req] ∧
      Login.apiError out.1 =
        Api.message_or error "Login failed. Please check your credentials."
  end.
Proof.
  intros Hvalid req out. subst req out.
  unfold Login.validate in Hvalid. simpl in Hvalid.
  pose proof (proj1 (validate_size _) Hvalid) as Hempty.
  unfold Login.handleSubmit, Login.validate. simpl. rewrite Hvalid. simpl.
  rewrite Hempty.
  unfold Api.authAPI.login, Api.config, Login.object_of.
  destruct (net [] _) as [response|error]; simpl; [|done].
  rewrite !member_nullish. by destruct (nullish (Api.body response)).
Qed.

(** X10. The signup form is accepted exactly when the name is not blank, the
    email holds an address, the password has six code units or more and the
    confirmation equals the password. *)
Theorem signup_validate_accepts (st : Signup.State) :
  (Signup.validate st).2 = true ↔
  blank (Signup.name (Signup.formData st)) = false ∧
  contains_address (Signup.email (Signup.formData st)) ∧
  (6 ≤ String.length (Signup.password (Signup.formData st)))%nat ∧
  Signup.confirmPassword (Signup.formData st) = Signup.password (Signup.formData st).
Proof.
  unfold Signup.validate. simpl.
  by rewrite validate_size, signup_newErrors_empty.
Qed.

(** X11. After an accepted signup the session store's [login] and the
    navigation to [/dashboard] are called, in this order, exactly when the
    request is fulfilled with a body that is neither [null] nor [undefined];
    a rejected request or such a body shows the server's message or the
    fallback text and calls nothing. In every case the form, confirmation
    included, is kept and the loading flag ends off. *)
Theorem signup_submit_outcomes (st : Signup.State) :
  (Signup.validate st).2 = true →
  let req := Api.authAPI.signup (Signup.signupData (Signup.formData st)) in
  let out := React.run net (Signup.handleSubmit st) st [] in
  Signup.formData out.1 = Signup.formData st ∧
  Signup.errors out.1 = ∅ ∧
  Signup.loading out.1 = false ∧
  match net [] req with
  | Api.Fulfilled response =>
      if nullish (Api.body response)
      then out.2 = [React.Sent req] ∧
           Signup.apiError out.1 = Js.Str "Signup failed. Please try again."
      else out.2 = [React.Sent req;
                    React.Called
                      (AuthLogin (Js.prop "token" (Api.body response))
                         (Js.prop "user" (Api.body response)));
                    React.Called (Navigate "/dashboard")] ∧
           Signup.apiError out.1 = Js.Str ""
  | Api.Rejected error =>
      out.2 = [React.Sent req] ∧
      Signup.apiError out.1 =
        Api.message_or error "Signup failed. Please try again."
  end.
Proof.
  intros Hvalid req out. subst req out.
  unfold Signup.validate in Hvalid. simpl in Hvalid.
  pose proof (proj1 (validate_size _) Hvalid) as Hempty.
  unfold Signup.handleSubmit, Signup.validate. simpl. rewrite Hvalid. simpl.
  rewrite Hempty.
  destruct (net [] _) as [response|error]; simpl; [|done].
  rewrite !member_nullish. by destruct (nullish (Api.body response)).
Qed.
End SubmitFacts.

(** ** Editing a field *)

Section ChangeFacts.

(** X12. [handleChange], the same in the four forms: the edited field takes
    the new value and the other fields keep theirs; the error of the edited
    field is no longer on display (it is absent or empty) and the errors of
    the other fields are as before; nothing is sent and nothing else of the
    view changes. *)
Theorem handleChange_hides_error :
  (∀ (net : React.Network Effect) f value st,
     let out := React.run net (Login.handleChange f value st) st [] in
     out.2 = [] ∧
     Login.formData out.1 = Login.set_field f value (Login.formData st) ∧
     Login.loading out.1 = Login.loading st ∧
     Login.apiError out.1 = Login.apiError st ∧
     Js.truthy_opt (Login.errors out.1 !! Login.field_name f) = false ∧
     (∀ k, k ≠ Login.field_name f →
           Login.errors out.1 !! k = Login.errors st !! k)) ∧
  (∀ (net : React.Network Effect) f value st,
     let out := React.run net (Signup.handleChange f value st) st [] in
     out.2 = [] ∧
     Signup.formData out.1 = Signup.set_field f value (Signup.formData st) ∧
     Signup.loading out.1 = Signup.loading st ∧
     Signup.apiError out.1 = Signup.apiError st ∧
     Js.truthy_opt (Signup.errors out.1 !! Signup.field_name f) = false ∧
     (∀ k, k ≠ Signup.field_name f →
           Signup.errors out.1 !! k = Signup.errors st !! k)) ∧
  (∀ (net : React.Network Profile.Effect) f value st,
     let out := React.run net (Profile.handleChange f value st) st [] in
     out.2 = [] ∧
     Profile.formData out.1 = Profile.set_field f value (Profile.formData st) ∧
     Profile.isEditing out.1 = Profile.isEditing st ∧
     Profile.loading out.1 = Profile.loading st ∧
     Profile.message out.1 = Profile.message st ∧
     Js.truthy_opt (Profile.errors out.1 !! Profile.field_name f) = false ∧
     (∀ k, k ≠ Profile.field_name f →
           Profile.errors out.1 !! k = Profile.errors st !! k)) ∧
  (∀ (net : React.Network Effect) f value st,
     let out := React.run net (Tasks.handleChange f value st) st [] in
     out.2 = [] ∧
     Tasks.formData out.1 = Tasks.set_field f value (Tasks.formData st) ∧
     Tasks.tasks out.1 = Tasks.tasks st ∧
     Tasks.loading out.1 = Tasks.loading st ∧
     Tasks.showModal out.1 = Tasks.showModal st ∧
     Tasks.editingTask out.1 = Tasks.editingTask st ∧
     Tasks.searchText out.1 = Tasks.searchText st ∧
     Tasks.statusFilter out.1 = Tasks.statusFilter st ∧
     Tasks.message out.1 = Tasks.message st ∧
     Js.truthy_opt (Tasks.errors out.1 !! Tasks.field_name f) = false ∧
     (∀ k, k ≠ Tasks.field_name f →
           Tasks.errors out.1 !! k = Tasks.errors st !! k)).
Proof.
  split; [|split; [|split]]; intros net f value st out; subst out.
  - unfold Login.handleChange. simpl.
    destruct (Js.truthy_opt (Login.errors st !! Login.field_name f)) eqn:E;
      simpl; repeat split; auto;
      first [by rewrite lookup_insert_eq | intros k Hk; by rewrite lookup_insert_ne].
  - unfold Signup.handleChange. simpl.
    destruct (Js.truthy_opt (Signup.errors st !! Signup.field_name f)) eqn:E;
      simpl; repeat split; auto;
      first [by rewrite lookup_insert_eq | intros k Hk; by rewrite lookup_insert_ne].
  - unfold Profile.handleChange. simpl.
    destruct (Js.truthy_opt (Profile.errors st !! Profile.field_name f)) eqn:E;
      simpl; repeat split; auto;
      first [by rewrite lookup_insert_eq | intros k Hk; by rewrite lookup_insert_ne].
  - unfold Tasks.handleChange. simpl.
    destruct (Js.truthy_opt (Tasks.errors st !! Tasks.field_name f)) eqn:E;
      simpl; repeat split; auto;
      first [by rewrite lookup_insert_eq | intros k Hk; by rewrite lookup_insert_ne].
Qed.
End ChangeFacts.

(** ** Profile view *)

Section ProfileFacts.
Variable net : React.Network Profile.Effect.

(** X13. The profile form is accepted exactly when the name is not blank,
    the email holds an address, and the password is left empty or has six
    code units or more. *)
Theorem profile_validate_accepts (st : Profile.State) :
  (Profile.validate st).2 = true ↔
  blank (Profile.name (Profile.formData st)) = false ∧
  contains_address (Profile.email (Profile.formData st)) ∧
  (Profile.password (Profile.formData st) = "" ∨
   (6 ≤ String.length (Profile.password (Profile.formData st)))%nat).
Proof.
  unfold Profile.validate. simpl.
  by rewrite validate_size, profile_newErrors_empty.
Qed.

(** X14. The body of a profile update always carries the name and the email
    of the form, carries the password exactly when one was typed, and carries
    nothing else: an empty password is never sent. *)
Theorem profile_update_body (fd : Profile.FormData) :
  let body := Profile.updateData fd in
  body !! "name" = Some (Profile.name fd) ∧
  body !! "email" = Some (Profile.email fd) ∧
  body !! "password" =
    (if decide (Profile.password fd = "") then None
     else Some (Profile.password fd)) ∧
  (∀ k, k ≠ "name" → k ≠ "email" → k ≠ "password" → body !! k = None).
Proof.
  unfold Profile.updateData.
  destruct (Profile.password fd) as [|c pw]; simpl;
    repeat split; try (by simplify_map_eq); intros; by simplify_map_eq.
Qed.

Lemma form_of_password (user : Js.value) (fd : Profile.FormData) :
  Profile.form_of user = Some fd → Profile.password fd = "".
Proof.
  unfold Profile.form_of. intros H.
  destruct (Profile.or_empty (Js.opt_member "name" user)); [|done].
  destruct (Profile.or_empty (Js.opt_member "email" user)); [|done].
  simpl in H. by injection H as <-.
Qed.

(** The updates [handleSubmit] makes after [updateUser] and the refill of
    the effect on [[user]] end in the same state in either order. *)
Lemma refill_commutes (fd : Profile.FormData) (m : Profile.Message)
    (st : Profile.State) :
  Profile.password fd = "" →
  let rest st :=
    Profile.setLoading false
      (Profile.setMessage m
         (Profile.setFormData
            (Profile.set_field Profile.Password "" (Profile.formData st))
            (Profile.setIsEditing false st))) in
  rest (Profile.setFormData fd st) = Profile.setFormData fd (rest st).
Proof. destruct fd as [n e pw]. simpl. by intros ->. Qed.

(** X15. What a submission of the profile form does, in the view as it is
    mounted under the session store's provider. A refused form shows its
    errors and sends nothing. An accepted one sends one PUT to [/profile]
    and then: if the request is fulfilled with a body that is neither [null]
    nor [undefined], the session store's [updateUser] is called with the
    [user] of the body, editing ends, the success message shows and the
    password field is emptied; the name and the email of the form are those
    of that user (the empty text for a falsy one) when that user is truthy
    and not the same as the session's user before, and stay as typed
    otherwise. If the request is rejected, or fulfilled with such a body,
    [updateUser] is not called, the form stays open as typed and the
    server's message or the fallback text shows. The loading flag ends
    off. *)
Theorem profile_submit_outcomes (user : Js.value) (st : Profile.State) :
  let fd := Profile.formData st in
  let req := Api.mkRequest Api.PUT "/profile" (Some (Profile.updateData fd)) ∅
               Api.default_headers in
  let failed text :=
    Some (Profile.mkState (Profile.isEditing st) fd ∅ false
            (Profile.mkMessage "error" text),
          [React.Sent req]) in
  if (Profile.validate st).2
  then
    match net [] req with
    | Api.Fulfilled response =>
        if nullish (Api.body response)
        then Profile.submit net user st =
               failed (Js.Str "Failed to update profile")
        else
          let next := Js.prop "user" (Api.body response) in
          let form :=
            if Js.truthy next && negb (Js.same user next)
            then Profile.form_of next
            else Some (Profile.mkFormData (Profile.name fd) (Profile.email fd) "")
          in
          Profile.submit net user st =
            form' ← form;
            Some (Profile.mkState false form' ∅ false
                    (Profile.mkMessage "success"
                       (Js.Str "Profile updated successfully!")),
                  [React.Sent req; React.Called (Profile.UpdateUser next)])
    | Api.Rejected error =>
        Profile.submit net user st =
          failed (Api.message_or error "Failed to update profile")
    end
  else
    Profile.submit net user st =
      Some (Profile.setErrors (Profile.newErrors fd)
              (Profile.setMessage (Profile.mkMessage "" (Js.Str "")) st),
            []) ∧
    Profile.newErrors fd ≠ ∅.
Proof.
  intros fd req failed. subst fd req failed.
  unfold Profile.submit, Profile.handleSubmit, Profile.validate. simpl.
  destruct (bool_decide (size (Profile.newErrors (Profile.formData st)) = 0%nat))
    eqn:Hvalid; simpl.
  - rewrite (proj1 (validate_size _) Hvalid).
    unfold Api.profileAPI.update, Api.config.
    destruct (net [] _) as [response|error]; simpl; [|done].
    rewrite member_nullish.
    destruct (nullish (Api.body response)); simpl; [done|].
    unfold Profile.onUser.
    destruct (Js.same user (Js.prop "user" (Api.body response))); simpl;
      [by rewrite andb_false_r|].
    rewrite andb_true_r.
    destruct (Js.truthy (Js.prop "user" (Api.body response))); simpl; [|done].
    by destruct (Profile.form_of (Js.prop "user" (Api.body response))).
  - split; [done|]. intros Hempty. apply validate_size in Hempty. congruence.
Qed.
End ProfileFacts.

(** The form ends with what the server answered, not with what was
    typed. *)
Example profile_submit_refills :
  Profile.submit Sample.saving Sample.alice' Sample.profile_editing =
    Some (Profile.mkState false
            (Profile.mkFormData "Alice" "alice@example.com" "") ∅ false
            (Profile.mkMessage "success"
               (Js.Str "Profile updated successfully!")),
          [React.Sent
             (Api.profileAPI.update
                {[ "name" := "Alice B."; "email" := "alice@example.org" ]});
           React.Called (Profile.UpdateUser Sample.alice)]).
Proof. vm_compute. reflexivity. Qed.

(** ** Tasks view, continued *)

Section TasksMore.
Variable net : React.Network Effect.
Implicit Types (st : Tasks.State) (log : list (React.Event Effect)).

(** The request of a list fetch created by the render that saw [st]. *)
Local Abbreviation list_request st :=
  (Api.tasksAPI.getAll (Tasks.params (Tasks.searchText st) (Tasks.statusFilter st))).

(** What a fulfilled list request leaves in [tasks]. *)
Local Abbreviation listed response :=
  (Js.or (Js.or (Js.prop "tasks" (Api.body response)) (Api.body response))
     (Js.Arr [])).

Lemma truthy_not_nullish (v : Js.value) :
  Js.truthy v = true → nullish v = false.
Proof. by destruct v. Qed.

Lemma or_not_nullish (a b : Js.value) :
  nullish b = false → nullish (Js.or a b) = false.
Proof.
  intros Hb. unfold Js.or.
  destruct (Js.truthy a) eqn:Ha; [by apply truthy_not_nullish|done].
Qed.

Lemma listed_not_nullish (response : Api.Response) :
  nullish (listed response) = false.
Proof. by apply or_not_nullish. Qed.

(** X16. What a fulfilled list request does. With a body that is [null] or
    [undefined] the tasks on display stay and the banner reads "Failed to
    fetch tasks", although the request succeeded. With any other body the
    banner is left alone and the list becomes the [tasks] of the body when
    that is truthy, else the body itself when it is truthy, else the empty
    array; in no case does the list become [null] or [undefined]. *)
Theorem fetch_success_tasks st st0 log (response : Api.Response) :
  net log (list_request st) = Api.Fulfilled response →
  let st' := (React.run net (Tasks.fetchTasks st) st0 log).1 in
  Tasks.loading st' = false ∧
  if nullish (Api.body response)
  then Tasks.tasks st' = Tasks.tasks st0 ∧
       Tasks.message st' =
         Tasks.mkMessage "error" (Js.Str "Failed to fetch tasks")
  else Tasks.message st' = Tasks.message st0 ∧
       Tasks.tasks st' =
         (if Js.truthy (Js.prop "tasks" (Api.body response))
          then Js.prop "tasks" (Api.body response)
          else if Js.truthy (Api.body response) then Api.body response
          else Js.Arr []) ∧
       nullish (Tasks.tasks st') = false.
Proof.
  intros Hnet st'. subst st'. unfold Tasks.fetchTasks. simpl. rewrite Hnet.
  rewrite member_nullish.
  destruct (nullish (Api.body response)) eqn:Hbody; simpl; [done|].
  split; [done|]. split; [done|]. split; [|apply listed_not_nullish].
  unfold Js.or.
  destruct (Js.truthy (Js.prop "tasks" (Api.body response))) eqn:Htasks;
    by rewrite ?Htasks.
Qed.

(** X17. The task form is accepted exactly when neither the title nor the
    description is blank. *)
Theorem task_validate_accepts st :
  (Tasks.validate st).2 = true ↔
  blank (Tasks.title (Tasks.formData st)) = false ∧
  blank (Tasks.description (Tasks.formData st)) = false.
Proof.
  unfold Tasks.validate. simpl.
  by rewrite validate_size, tasks_newErrors_empty.
Qed.

(** X18. What a submission of the task form does. A refused form shows its
    errors and sends nothing. An accepted one sends one request, the update
    of the task being edited or a creation. If that request is rejected,
    nothing follows it: the modal stays open, the list is kept and the
    server's message or "Operation failed" shows. If it is fulfilled, the
    modal closes and one list fetch follows; the success message stays only
    if that fetch brings a body, and a failed fetch replaces it with the
    fetch error while the old list stays on display. The form, the task
    being edited and the loading flag (off) end the same in every case. *)
Theorem task_submit_outcomes st :
  let req := Tasks.submit_request st in
  let out := React.run net (Tasks.handleSubmit st) st [] in
  if (Tasks.validate st).2
  then
    Tasks.errors out.1 = ∅ ∧ Tasks.loading out.1 = false ∧
    Tasks.formData out.1 = Tasks.formData st ∧
    Tasks.editingTask out.1 = Tasks.editingTask st ∧
    match net [] req with
    | Api.Fulfilled _ =>
        React.requests out.2 = [req; list_request st] ∧
        Tasks.showModal out.1 = false ∧
        match net [React.Sent req] (list_request st) with
        | Api.Fulfilled response =>
            if nullish (Api.body response)
            then Tasks.tasks out.1 = Tasks.tasks st ∧
                 Tasks.message out.1 =
                   Tasks.mkMessage "error" (Js.Str "Failed to fetch tasks")
            else Tasks.tasks out.1 = listed response ∧
                 Tasks.message out.1 =
                   Tasks.mkMessage "success"
                     (Js.Str (if Js.truthy (Tasks.editingTask st)
                              then "Task updated successfully!"
                              else "Task created successfully!"))
        | Api.Rejected error =>
            Tasks.tasks out.1 = Tasks.tasks st ∧
            Tasks.message out.1 =
              Tasks.mkMessage "error"
                (Api.message_or error "Failed to fetch tasks")
        end
    | Api.Rejected error =>
        React.requests out.2 = [req] ∧
        Tasks.showModal out.1 = Tasks.showModal st ∧
        Tasks.tasks out.1 = Tasks.tasks st ∧
        Tasks.message out.1 =
          Tasks.mkMessage "error" (Api.message_or error "Operation failed")
    end
  else
    out.2 = [] ∧
    out.1 = Tasks.setErrors (Tasks.newErrors (Tasks.formData st))
              (Tasks.setMessage (Tasks.mkMessage "" (Js.Str "")) st) ∧
    Tasks.newErrors (Tasks.formData st) ≠ ∅.
Proof.
  intros req out. subst req out.
  unfold Tasks.handleSubmit, Tasks.validate. simpl.
  destruct (bool_decide (size (Tasks.newErrors (Tasks.formData st)) = 0%nat))
    eqn:Hvalid; simpl.
  - rewrite (proj1 (validate_size _) Hvalid).
    destruct (net [] (Tasks.submit_request st)) as [response|error]; simpl;
      [|done].
    destruct (net _ (list_request st)) as [response'|error']; simpl; [|done].
    rewrite member_nullish. by destruct (nullish (Api.body response')).
  - repeat split. intros Hempty. apply validate_size in Hempty. congruence.
Qed.

(** X19. What a confirmed deletion leaves on display. A rejected DELETE keeps
    the list and shows the server's message or "Failed to delete task". After
    a fulfilled DELETE the list is what the fetch that follows brings and the
    banner reads "Task deleted successfully!"; if that fetch fails, the
    deleted task stays on display and the banner shows the fetch error
    instead. The search text, the filter, the modal and its form are not
    touched, and the loading flag ends off. *)
Theorem delete_outcomes st (id : string) :
  let req := Api.tasksAPI.delete id in
  let out := React.run net (Tasks.handleDelete true id st) st [] in
  Tasks.loading out.1 = false ∧
  Tasks.searchText out.1 = Tasks.searchText st ∧
  Tasks.statusFilter out.1 = Tasks.statusFilter st ∧
  Tasks.showModal out.1 = Tasks.showModal st ∧
  Tasks.editingTask out.1 = Tasks.editingTask st ∧
  Tasks.formData out.1 = Tasks.formData st ∧
  Tasks.errors out.1 = Tasks.errors st ∧
  match net [] req with
  | Api.Fulfilled _ =>
      match net [React.Sent req] (list_request st) with
      | Api.Fulfilled response =>
          if nullish (Api.body response)
          then Tasks.tasks out.1 = Tasks.tasks st ∧
               Tasks.message out.1 =
                 Tasks.mkMessage "error" (Js.Str "Failed to fetch tasks")
          else Tasks.tasks out.1 = listed response ∧
               Tasks.message out.1 =
                 Tasks.mkMessage "success" (Js.Str "Task deleted successfully!")
      | Api.Rejected error =>
          Tasks.tasks out.1 = Tasks.tasks st ∧
          Tasks.message out.1 =
            Tasks.mkMessage "error"
              (Api.message_or error "Failed to fetch tasks")
      end
  | Api.Rejected error =>
      Tasks.tasks out.1 = Tasks.tasks st ∧
      Tasks.message out.1 =
        Tasks.mkMessage "error" (Api.message_or error "Failed to delete task")
  end.
Proof.
  intros req out. subst req out. unfold Tasks.handleDelete. simpl.
  destruct (net [] (Api.tasksAPI.delete id)) as [response|error]; simpl;
    [|done].
  destruct (net _ (list_request st)) as [response'|error']; simpl; [|done].
  rewrite member_nullish. by destruct (nullish (Api.body response')).
Qed.

Lemma as_string_Some (v : Js.value) (s : string) :
  Js.as_string v = Some s → v = Js.Str s.
Proof. destruct v; simpl; congruence. Qed.

Lemma prop_Str_truthy (k s : string) (v : Js.value) :
  Js.prop k v = Js.Str s → Js.truthy v = true.
Proof. by destruct v. Qed.

(** X20. Opening a task for editing and saving it. [handleEdit] on a task
    whose title, description and status are strings opens the modal on that
    task, with these three strings in the form and no error or banner, and
    sends nothing. The request a submission then awaits is a PUT to
    [/tasks/] followed by the task's [_id] when that is truthy and its [id]
    otherwise, printed as a template literal prints it (a number being one
    of the fragment, an integer below 2^53 in magnitude), with the three
    strings as body. *)
Theorem edit_then_submit_request
    (task : Js.value) (p : React.Proc Tasks.State Effect) st :
  Tasks.handleEdit task = Some p →
  let out := React.run net p st [] in
  let fd := Tasks.formData out.1 in
  out.2 = [] ∧
  Tasks.editingTask out.1 = task ∧
  Tasks.showModal out.1 = true ∧
  Tasks.errors out.1 = ∅ ∧
  Tasks.message out.1 = Tasks.mkMessage "" (Js.Str "") ∧
  Tasks.tasks out.1 = Tasks.tasks st ∧
  Js.prop "title" task = Js.Str (Tasks.title fd) ∧
  Js.prop "description" task = Js.Str (Tasks.description fd) ∧
  Js.prop "status" task = Js.Str (Tasks.status fd) ∧
  Tasks.submit_request out.1 =
    Api.mkRequest Api.PUT
      ("/tasks/" +:+
       Js.to_string (if Js.truthy (Js.prop "_id" task)
                     then Js.prop "_id" task else Js.prop "id" task))
      (Some {[ "title" := Tasks.title fd;
               "description" := Tasks.description fd;
               "status" := Tasks.status fd ]})
      ∅ Api.default_headers.
Proof.
  unfold Tasks.handleEdit. intros Hedit.
  destruct (Js.as_string (Js.prop "title" task)) as [t|] eqn:Ht; [|done].
  destruct (Js.as_string (Js.prop "description" task)) as [d|] eqn:Hd; [|done].
  destruct (Js.as_string (Js.prop "status" task)) as [s|] eqn:Hs; [|done].
  simpl in Hedit. injection Hedit as <-.
  apply as_string_Some in Ht, Hd, Hs. simpl.
  repeat split; try done.
  unfold Tasks.submit_request. simpl.
  by rewrite (prop_Str_truthy _ _ _ Ht).
Qed.

(** X21. Opening the form for a new task, from any state of the view, even
    in the middle of an edit: the modal opens on an empty form with status
    "pending", no task is being edited, so that the request of a submission
    is a creation, and nothing is sent. Submitting that form untouched is
    refused with both "Title is required" and "Description is required". *)
Theorem create_resets_form st :
  let opened := React.run net Tasks.handleCreate st [] in
  let out := React.run net (Tasks.handleSubmit opened.1) opened.1 [] in
  opened.2 = [] ∧
  Tasks.showModal opened.1 = true ∧
  Tasks.editingTask opened.1 = Js.Null ∧
  Tasks.formData opened.1 = Tasks.mkFormData "" "" "pending" ∧
  Tasks.errors opened.1 = ∅ ∧
  Tasks.tasks opened.1 = Tasks.tasks st ∧
  Tasks.submit_request opened.1 =
    Api.mkRequest Api.POST "/tasks"
      (Some {[ "title" := ""; "description" := ""; "status" := "pending" ]})
      ∅ Api.default_headers ∧
  out.2 = [] ∧
  Tasks.errors out.1 =
    {[ "title" := "Title is required";
       "description" := "Description is required" ]} ∧
  Tasks.showModal out.1 = true.
Proof.
  simpl. repeat split.
Qed.
End TasksMore.

(** ** Dashboard page *)

Section DashboardFacts.
Variable net : React.Network Dashboard.Effect.

Lemma click_keeps_tab (c : Dashboard.Click) (st : Dashboard.State) :
  Dashboard.activeTab st = "profile" ∨ Dashboard.activeTab st = "tasks" →
  let st' := (React.run net (Dashboard.onClick c st) st []).1 in
  Dashboard.activeTab st' = "profile" ∨ Dashboard.activeTab st' = "tasks".
Proof. destruct c; simpl; auto. Qed.

Lemma clicks_keep_tab (clicks : list Dashboard.Click) (st : Dashboard.State) :
  Dashboard.activeTab st = "profile" ∨ Dashboard.activeTab st = "tasks" →
  let st' := dashboard_after net clicks st in
  Dashboard.activeTab st' = "profile" ∨ Dashboard.activeTab st' = "tasks".
Proof.
  revert st. induction clicks as [|c clicks IH]; intros st Hst; simpl; [done|].
  apply IH. by apply click_keeps_tab.
Qed.

(** X22. Whatever is clicked on the dashboard, and in whatever order,
    exactly one panel is on display, the profile or the tasks. From any such
    state, a sidebar button shows its panel and closes the sidebar, the
    overlay closes the sidebar, and the logout button calls the session
    store's [logout] and then navigates to [/login]. *)
Theorem dashboard_one_panel (clicks : list Dashboard.Click) :
  let st := dashboard_after net clicks Dashboard.initial in
  let click c := React.run net (Dashboard.onClick c st) st [] in
  (Dashboard.panels st = [Dashboard.ProfilePanel] ∨
   Dashboard.panels st = [Dashboard.TasksPanel]) ∧
  (Dashboard.panels (click Dashboard.ProfileButton).1 = [Dashboard.ProfilePanel] ∧
   Dashboard.sidebarOpen (click Dashboard.ProfileButton).1 = false) ∧
  (Dashboard.panels (click Dashboard.TasksButton).1 = [Dashboard.TasksPanel] ∧
   Dashboard.sidebarOpen (click Dashboard.TasksButton).1 = false) ∧
  (Dashboard.sidebarOpen (click Dashboard.Overlay).1 = false ∧
   Dashboard.activeTab (click Dashboard.Overlay).1 = Dashboard.activeTab st) ∧
  click Dashboard.LogoutButton =
    (st, [React.Called Dashboard.Logout;
          React.Called (Dashboard.Navigate "/login")]).
Proof.
  intros st click. subst click.
  split; [|by repeat split].
  destruct (clicks_keep_tab clicks Dashboard.initial) as [H|H]; [by left|..];
    fold st in H; unfold Dashboard.panels; rewrite H; [by left|by right].
Qed.
End DashboardFacts.

(** ** Examples of the properties above *)

Lemma login_submit_outcomes_witness :
  let st := Sample.login_form in
  let req :=
    Api.mkRequest Api.POST "/auth/login"
      (Some {[ "email" := "alice@example.com"; "password" := "secret1" ]})
      ∅ Api.default_headers in
  let out := React.run Sample.accepting (Login.handleSubmit st) st [] in
  Login.formData out.1 = Login.formData st ∧
  Login.errors out.1 = ∅ ∧
  Login.loading out.1 = false ∧
  out.2 = [React.Sent req;
           React.Called
             (AuthLogin (Js.Str "tok-1")
                (Js.Obj [("id", Js.Str "u1"); ("name", Js.Str "Alice");
                         ("email", Js.Str "alice@example.com")]));
           React.Called (Navigate "/dashboard")] ∧
  Login.apiError out.1 = Js.Str "".
Proof.
  apply (login_submit_outcomes Sample.accepting Sample.login_form).
  vm_compute. reflexivity.
Defined.

Lemma signup_submit_outcomes_witness :
  let st := Sample.signup_form in
  let req := Api.authAPI.signup (Signup.signupData (Signup.formData st)) in
  let out := React.run Sample.refusing (Signup.handleSubmit st) st [] in
  Signup.formData out.1 = Signup.formData st ∧
  Signup.errors out.1 = ∅ ∧
  Signup.loading out.1 = false ∧
  out.2 = [React.Sent req] ∧
  Signup.apiError out.1 = Js.Str "Try again later".
Proof.
  apply (signup_submit_outcomes Sample.refusing Sample.signup_form).
  vm_compute. reflexivity.
Defined.

Lemma fetch_success_tasks_witness :
  let st := Sample.searching in
  let st' := (React.run Sample.accepting (Tasks.fetchTasks st) st []).1 in
  Tasks.loading st' = false ∧
  Tasks.message st' = Tasks.message st ∧
  Tasks.tasks st' = Js.Arr [] ∧
  nullish (Tasks.tasks st') = false.
Proof.
  intros st.
  exact (fetch_success_tasks Sample.accepting st st []
           (Api.mkResponse 200
              (Js.Obj [("token", Js.Str "tok-1");
                       ("user", Js.Obj [("id", Js.Str "u1");
                                        ("name", Js.Str "Alice");
                                        ("email", Js.Str "alice@example.com")]);
                       ("tasks", Js.Arr [])]))
           eq_refl).
Defined.

Lemma edit_then_submit_request_witness :
  let out := React.run Sample.accepting Sample.edit_task7 Sample.searching [] in
  out.2 = [] ∧
  Tasks.editingTask out.1 = Sample.task7 ∧
  Tasks.showModal out.1 = true ∧
  Tasks.formData out.1 = Tasks.mkFormData "Buy milk" "2%" "pending" ∧
  Tasks.submit_request out.1 =
    Api.mkRequest Api.PUT "/tasks/7"
      (Some {[ "title" := "Buy milk"; "description" := "2%";
               "status" := "pending" ]})
      ∅ Api.default_headers.
Proof.
  destruct (edit_then_submit_request Sample.accepting Sample.task7
              Sample.edit_task7 Sample.searching eq_refl)
    as (Hlog & Hedit & Hmodal & _ & _ & _ & _ & _ & _ & Hreq).
  exact (conj Hlog (conj Hedit (conj Hmodal (conj eq_refl Hreq)))).
Defined.
